(* ===== verification/_CoqProject ===== *)
-Q . S2P
Prelude.v
Address.v
Script.v
Registry.v
Compliance.v
Ledger.v
Batch.v
BatchGrouped.v
Hypershare.v
Deploy.v
ScriptExec.v
ScriptModule.v
Examples.v
