(* ===== verification/Prelude.v ===== *)
(** * Hypershare: a verified model of the compliance-gated share ledger

    ** The program

    The repository (hyperlabs-finance/hypershare) ships one source file,
    [src/deploy.py], a brownie script that deploys two contracts and
    exercises them: [Hypershare], a multi-class share-token ledger, and
    [HypershareRegistry], its compliance registry. The contracts' own code
    is not in the repository's files: the script is modelled from its
    source over an interface of the contract ([Script.v]), and the
    contracts' behaviour from the specification (spec.md), as one
    implementation of that interface. The parts:

    - TokenClassRegistry: per-class policy (shareholder limit, minimum
      holding, non-divisibility) and holder count;
    - ComplianceEngine: the pure decision [validate] for one balance change;
    - Ledger: the balance table; [mint] and [transfer] validate every
      change through the ComplianceEngine, then commit balance and holder
      count together;
    - BatchCoordinator: [mintBatch] / [transferBatch], validated entry by
      entry on a scratch ledger and committed all at once or not at all
      (the spec's algorithm also groups the entries by class first);
    - the Hypershare contract: the entry points ([newToken], [mint],
      [mintBatch], [transfer], [transferBatch], [setRegistry]) applied one
      committed call at a time;
    - the deploy script [main].

    Data flow: a call reaches [Hypershare.receive], which delegates to the
    Ledger or the BatchCoordinator; every balance change goes through
    [Ledger.decideDelta] (registry policy lookup, then [validate]) and is
    written by [Ledger.commit], which also adjusts the registry's holder
    count through the [ClassRegistry] interface.

    ** The files

    - [Prelude.v] (this file): addresses ([N]), class ids ([nat]), the
      spec's error taxonomy [Error], the [result] monad (an error aborts
      the call and returns no state: the revert semantics), [fail_if] /
      [require] guards with the [fail_when] notation of [hs_scope], the
      [hs] hint databases and the tactics [inv_result], [solve_disj] and
      [wf_auto].
    - [Address.v]: brownie's reading and printing of hex address
      literals ([parseAddress], [showAddress]), used for [ZERO_ADDR];
      the round trip on 160-bit values and the 160-bit bound.
    - [Script.v]: module [Script]: [src/deploy.py] itself, written over the
      interface [HypershareApi] (the contract's constructor and the three
      methods the script calls, each returning brownie's [Receipt]). It
      holds the script's constants and arguments, the calls [Call] sent by
      [send], the transaction [tx] (signed by [deployer] = [accounts[0]];
      a revert raises and ends the script), [print] and [main]; the
      reference runner [runCalls] / [confirmAll]. brownie's accounts and
      the two contract addresses are section variables.
    - [Registry.v]: [Policy]; the interface [ClassRegistry] (read a policy,
      read or adjust a holder count) with its laws [ClassRegistryLaws];
      [TokenRegistry] (module): the concrete registry ([createClass],
      [getPolicy], [holderCount], [adjustHolderCount]) and its instances.
    - [Compliance.v]: [UNIT] (one whole share, 10^18), [Decision], [validate].
    - [Ledger.v]: a section over any registry satisfying the laws: the
      [Ledger] record ([_balances[class][account]] as a gmap of gmaps),
      [balanceOf], [decideDelta], [commit], [applyDelta], [mint],
      [transfer]; the holder set [holders] and [supply] used by the
      theorems; the invariant [wf].
    - [Batch.v]: [Entry], [simulate] (phase 1 on a scratch ledger),
      [commitAll] (phase 2), [applyBatch], [mintBatch], [transferBatch], and
      the reference semantics [applySeq].
    - [BatchGrouped.v]: the spec's batch algorithm step by step:
      [classEntries] and [batchClasses] (step 1, grouping by class),
      [simulateClasses] (step 2, each class on a scratch copy),
      [applyBatchGrouped] (steps 3 and 4); the observational equality
      [ledger_equiv] of ledgers (same policies, holder counts and balances
      in every class) with its [Equivalence] and [Proper] instances.
    - [Hypershare.v]: module [Hypershare]: contract storage [State], calls
      [Msg], [deploy], [newToken], [setRegistry], [receive], the step
      relation [step] of serialized calls, [reachable]; the spec's
      scenarios run on the model.
    - [Deploy.v]: module [Deploy]: the instance [Hypershare_api] of the
      script's interface by the contract model ([receive] on the matching
      message, [callMsg] the message of a call), and what the script's
      calls do to that contract.
    - [ScriptExec.v]: module [ScriptExec]: [main()]'s body as Python runs
      it, a list of statements [Stmt] ([body]) executed one at a time by
      the step relation [step] (and the function [stepf]) on a [Frame]
      holding [main]'s local variables [HYPERSHARE] and [REGISTRY], the
      console and the transactions sent; every rule requires the
      variables its statement reads; a revert raises out of [main]
      ([Returned] with the error).
    - [ScriptModule.v]: module [ScriptModule]: the module import:
      brownie's account list as a [list Address] indexed the Python way
      ([getitem]: [IndexError] past the end, in the small exception monad
      [Py]) and the module-level statements of lines 4-8 ([importModule],
      binding the [Globals]).
    - [Examples.v]: concrete runs instantiating the theorems that have
      hypotheses, evaluated by [vm_compute].

    ** The theorems

    The script's own code, for every contract behind the interface and
    every address assignment:
    - [Script.main_as_runCalls]: the nested transactions of [main] are
      the reference runner on [setRegistry], [newToken], [mintBatch]: the
      same final storage, calls sent and error, so a revert stops the
      script at that call;
    - [main_printed] (both addresses, in order, whatever the calls do),
      [main_links_contracts] (registry built with [HYPERSHARE.address],
      [setRegistry] given [REGISTRY.address]);
    - what the run depends on: [main_reads_accounts_0_4] ([main] reads
      only [accounts[0..4]]) and [main_hs_addr_noninterference] (the
      storage, transactions and error do not depend on
      [HYPERSHARE.address]);
    - [ScriptExec.reachable_progress]: no run of the body gets stuck, so
      every variable is assigned before a statement reads it;
    - [ScriptModule.import_module]: the import succeeds exactly with five
      accounts or more, binding [PAYEE1..4] to [accounts[1..4]], and
      raises [IndexError] otherwise.

    The script's calls on the contract model ([Deploy.v]), on every
    contract state they could meet:
    - [newTokenTx_Ok] (commits, next class id, the script's policy, nothing
      else changed) and [newTokenTx_fresh_id];
    - [mintBatchTx_as_mints] (the batch is its four mints in order),
      [mintBatchTx_guards_pass], [mintBatchTx_unknown_class],
      [mintBatchTx_reverts] (on every well-formed contract with a
      non-divisible class 0, which the script's own [newToken] creates,
      the batch reverts with [DivisibilityViolation]),
      [mintBatchTx_divisible_Ok] and [mintBatchTx_new_holders] (what it
      does under a policy it fits);
    - [deployed_reachable_wf]: the invariant for the deployed contract.

    The contracts' model:
    - Invariant: [Hypershare.reachable_wf]: in every reachable state the
      holder count of every class is the size of its holder set, balances
      are non-negative and admissible, and the shareholder limit holds.
      Rule induction over [rtc step] from [deploy], built on
      [Ledger.commit_wf] (the step every operation is made of) and the
      per-operation lemmas [mint_wf], [transfer_wf], [applyBatch_wf],
      [mintBatch_wf], [transferBatch_wf]; holder counting rests on
      [Ledger.size_holders_insert].
    - Refinement of the batch: [Batch.applyBatch_applySeq] (the two-phase
      batch equals sequential application), lifted to the contract as
      [Hypershare.mintBatch_as_mints] and [mintBatch_first_error];
      [BatchGrouped.applyBatchGrouped_equiv]: the grouped algorithm accepts
      the same batches and commits a [ledger_equiv] ledger (classes do not
      interact: [commit_agree_other]); [applyBatchGrouped_one_class]: on
      a one-class batch the two are equal, errors included. On a batch
      failing in two classes they can report different errors
      ([Examples.grouped_error_differs]).
    - Functional behaviour and errors: [Compliance.validate_Ok] /
      [validate_Err] characterise the decision and its error order;
      [Hypershare.mint_call_balance], [transfer_call_balance],
      [mint_call_holder_count] and [transfer_calls_supply] at the
      contract's interface, on the ledger lemmas [mint_balance],
      [transfer_balance], [mintBatch_balance], [transfer_supply],
      [transferBatch_supply]; [transfer_guards], [mintBatch_arity],
      [newToken_Err] give the guard errors; [mint_complete] is the
      liveness direction (a compliant mint is never refused);
      [createClass_roundtrip], [createClass_preserves_policy].
    - The spec's scenarios A, B, C, D and the batch tie-break, evaluated
      ([Hypershare.scenario_A] ... [batch_tie_break]).

    ** Choices where the spec is silent, and bounds

    Amounts are unsigned ([N], like uint256 arguments), balances and
    deltas [Z]. The contract model needs no fuel: every operation is
    structurally recursive over its argument lists, so every definition
    is total and computes; no definition needs fuel. [UNIT] is 10^18 (the
    script's minimum 5000000000000000000 reads as five whole shares); the
    spec leaves it open, and the error the script's batch meets
    ([mintBatchTx_reverts]) depends on it being above 100. [mint] of 0 is refused with
    [InvalidParameters]; [transfer] rejects self-transfers and validates
    the credit against the state after the debit; [transferBatch]
    rejects a batch whose recipients include the sender and turns each
    pair into a debit entry and a credit entry. The registry keeps
    policies in a list indexed by class id (ids are sequential).

    ** Not modelled

    brownie's encoding of call arguments and its client-side errors: the
    [data] argument ["mint"] is passed through as a string, although
    brownie most likely refuses to convert a non-hex string to the
    contract's [bytes] parameter and raises before sending the
    [mintBatch] transaction; uint256 overflow (the spec has no overflow error; amounts are
    unbounded); access control and message senders (the spec has none;
    brownie sends the script's calls from the deployer); the token URI
    and metadata serving; the network, account provisioning and contract
    address derivation (the two contract addresses are parameters; the
    account list is a parameter whose length matters only at the
    import); the console beyond the list of printed addresses;
    [import pytest] and the unused [Contract] import (line 1-2), which
    have no effect on the run; the code of [HypershareRegistry] beyond
    its constructor, which is not in the repository and which the spec
    describes only through the registry and compliance roles modelled
    here; the role of the constructors'
    second address argument, which the script sets to [ZERO_ADDR] and the
    spec does not describe. *)

From stdpp Require Import base decidable gmap sets list relations.
From Stdlib Require Import ZArith Lia.

Open Scope Z_scope.

(** ** Basic types of the ledger *)

(** Account addresses: the 160-bit EVM addresses of the deploy script
    ([accounts[i]], [ZERO_ADDR]), read as natural numbers. *)
Abbreviation Address := N (only parsing).

(** Share-class identifiers: sequential, starting at 0. *)
Abbreviation ClassId := nat (only parsing).

(** The error taxonomy of the ledger (spec section 7). *)
Inductive Error :=
  | InvalidParameters
  | UnknownClass
  | NegativeBalance
  | DivisibilityViolation
  | BelowMinimumHolding
  | ShareholderLimitExceeded
  | InsufficientBalance
  | ArityMismatch
  | SelfTransferNotAllowed.

#[export] Instance Error_eq_dec : EqDecision Error.
Proof. solve_decision. Defined.

(** ** The result monad

    Every public operation either commits a new state or aborts with one
    [Error]; an aborted call returns no state at all, which is how the
    revert semantics of the contracts is modelled. *)
Inductive result (A : Type) :=
  | Ok (a : A)
  | Err (e : Error).
Arguments Ok {A} a.
Arguments Err {A} e.

#[export] Instance result_ret : MRet result := fun _ a => Ok a.
#[export] Instance result_bind : MBind result :=
  fun _ _ f m => match m with Ok a => f a | Err e => Err e end.
#[export] Instance result_fmap : FMap result :=
  fun _ _ f m => match m with Ok a => Ok (f a) | Err e => Err e end.

(** [require b e] is Solidity's [require(b, e)]. *)
Definition require (b : bool) (e : Error) : result unit :=
  if b then Ok () else Err e.

(** [fail_if b e] aborts with [e] when [b] holds: the spec states each
    rule as "fails with [e] if ...". *)
Definition fail_if (b : bool) (e : Error) : result unit :=
  if b then Err e else Ok ().

Declare Scope hs_scope.
Delimit Scope hs_scope with hs.
Notation "'fail_when' P 'with' e" := (fail_if (bool_decide P) e)
  (at level 10, P at level 200, e at level 9) : hs_scope.
Open Scope hs_scope.

Definition is_ok {A} (r : result A) : bool :=
  match r with Ok _ => true | Err _ => false end.

(** ** Generic lemmas on results *)

Create HintDb hs discriminated.
Create Rewrite HintDb hs_rw.

Lemma bind_Ok {A B} (m : result A) (f : A -> result B) (b : B) :
  (m ≫= f) = Ok b <-> exists a, m = Ok a /\ f a = Ok b.
Proof.
  destruct m as [a|e]; simpl; split.
  - eauto.
  - intros (a' & [= ->] & H). exact H.
  - discriminate.
  - intros (a' & ? & _). discriminate.
Qed.

Lemma bind_Err {A B} (m : result A) (f : A -> result B) (e : Error) :
  (m ≫= f) = Err e <-> m = Err e \/ exists a, m = Ok a /\ f a = Err e.
Proof.
  destruct m as [a|e']; simpl; split.
  - eauto.
  - intros [H|(a' & [= ->] & H)]; [discriminate|exact H].
  - intros H; left; congruence.
  - intros [H|(a' & H & _)]; [congruence|discriminate].
Qed.

Lemma fmap_Ok {A B} (f : A -> B) (m : result A) (b : B) :
  (f <$> m) = Ok b <-> exists a, m = Ok a /\ b = f a.
Proof.
  destruct m as [a|e]; simpl; split.
  - intros [= <-]. eauto.
  - intros (a' & [= ->] & ->). reflexivity.
  - discriminate.
  - intros (a' & ? & _). discriminate.
Qed.

Lemma require_Ok (b : bool) (e : Error) u :
  require b e = Ok u <-> b = true.
Proof. destruct b, u; simpl; split; congruence. Qed.

Lemma require_Err (b : bool) (e e' : Error) :
  require b e = Err e' <-> b = false /\ e' = e.
Proof. destruct b; simpl; split; [congruence|intros [? _]; congruence|intros [=<-]; auto|intros [_ ->]; reflexivity]. Qed.

Lemma fail_if_Ok (b : bool) (e : Error) u :
  fail_if b e = Ok u <-> b = false.
Proof. destruct b, u; simpl; split; congruence. Qed.

Lemma fail_if_Err (b : bool) (e e' : Error) :
  fail_if b e = Err e' <-> b = true /\ e' = e.
Proof. destruct b; simpl; split; [intros [=<-]; auto|intros [_ ->]; reflexivity|congruence|intros [? _]; congruence]. Qed.

Lemma Ok_bind {A B} (a : A) (f : A -> result B) : (Ok a ≫= f) = f a.
Proof. reflexivity. Qed.

Lemma Err_bind {A B} (e : Error) (f : A -> result B) : (Err e ≫= f) = Err e.
Proof. reflexivity. Qed.

#[export] Hint Rewrite @Ok_bind @Err_bind : hs_rw.

(** [inv_result] decomposes hypotheses [m ≫= f = Ok _] and [require _ _ = Ok _]. *)
Ltac inv_result :=
  repeat match goal with
  | H : (_ ≫= _) = Ok _ |- _ =>
      let a := fresh "a" in let Hm := fresh "Hm" in
      apply bind_Ok in H as (a & Hm & H)
  | H : require _ _ = Ok _ |- _ => apply require_Ok in H
  | H : fail_if _ _ = Ok _ |- _ => apply fail_if_Ok in H
  | H : bool_decide _ = true |- _ => apply bool_decide_eq_true in H
  | H : bool_decide _ = false |- _ => apply bool_decide_eq_false in H
  | H : (_ <$> _) = Ok _ |- _ =>
      let a := fresh "a" in let Hm := fresh "Hm" in
      apply fmap_Ok in H as (a & Hm & H)
  | H : Ok _ = Ok _ |- _ => injection H as H
  | H : Ok _ = Err _ |- _ => discriminate H
  | H : Err _ = Ok _ |- _ => discriminate H
  end.

(** [wf_auto] closes invariant goals from the preservation lemmas
    registered in [hs]. *)
Ltac wf_auto := eauto with hs typeclass_instances.

(** [close_arith] closes the propositional-arithmetic side goals that
    guard conditions produce; [solve_disj] picks the disjunct of a goal
    [P1 \/ P2 \/ ...] whose conjuncts all close. *)
Ltac close_arith :=
  solve [ reflexivity | lia | tauto
        | intros; match goal with
                  | |- @eq Z ?x ?y => destruct (decide (x = y)); tauto
                  end ].
Ltac split_close := repeat split; close_arith.
Ltac solve_disj :=
  first [ left; split_close | right; solve_disj | split_close ].
