(* ===== verification/Address.v ===== *)
(** * Address literals

    [src/deploy.py] writes [ZERO_ADDR] as the string
    ["0x0000000000000000000000000000000000000000"]; brownie turns such a
    string into a 160-bit address when it is passed to a contract. This
    file holds the hexadecimal reading and printing of addresses
    ([parseAddress], [showAddress]: ["0x"] and 40 hex digits, most
    significant first; upper- and lower-case digits are read, lower case
    is printed), the round trip between them on 160-bit values, and the
    bound on what [parseAddress] returns. *)

From Stdlib Require Import String Ascii.
From stdpp Require Import base list.
From Stdlib Require Import NArith ZArith Lia.
From S2P Require Import Prelude.

Open Scope N_scope.

(** The hex digit of a value below 16, lower case. *)
Definition hexDigit (d : N) : ascii :=
  if d <? 10 then ascii_of_N (48 + d) else ascii_of_N (87 + d).

(** The value of a hex digit, either case. *)
Definition hexValue (c : ascii) : option N :=
  let n := N_of_ascii c in
  if (48 <=? n) && (n <=? 57) then Some (n - 48)
  else if (97 <=? n) && (n <=? 102) then Some (n - 87)
  else if (65 <=? n) && (n <=? 70) then Some (n - 55)
  else None.

(** The [n] low hex digits of [a], most significant first. *)
Fixpoint showHex (n : nat) (a : N) : list ascii :=
  match n with
  | O => []
  | S n' => showHex n' (a / 16) ++ [hexDigit (a mod 16)]
  end.

(** Reading hex digits onto an accumulator. *)
Fixpoint parseHex (acc : N) (l : list ascii) : option N :=
  match l with
  | [] => Some acc
  | c :: l' => match hexValue c with
               | Some d => parseHex (acc * 16 + d) l'
               | None => None
               end
  end.

(** ["0x"] followed by exactly 40 hex digits. *)
Definition parseAddress (x : string) : option Address :=
  match list_ascii_of_string x with
  | c0 :: c1 :: ds =>
      if Ascii.eqb c0 "0"%char && Ascii.eqb c1 "x"%char && Nat.eqb (length ds) 40
      then parseHex 0 ds else None
  | _ => None
  end.

Definition showAddress (a : Address) : string :=
  string_of_list_ascii ("0"%char :: "x"%char :: showHex 40 a).

(** ** Theorems *)

Lemma hexValue_hexDigit d : d < 16 -> hexValue (hexDigit d) = Some d.
Proof.
  intros Hd. rewrite <- (N2Nat.id d). assert (Hn : (N.to_nat d < 16)%nat) by lia.
  generalize (N.to_nat d) Hn. clear d Hd Hn. intros n Hn.
  do 16 (destruct n as [|n]; [reflexivity|]). lia.
Qed.

Lemma hexValue_lt c d : hexValue c = Some d -> d < 16.
Proof.
  unfold hexValue. intros H.
  repeat match type of H with
  | context [(?x <=? ?y)] => destruct (N.leb_spec x y)
  end; simpl in H; try discriminate; injection H as <-; lia.
Qed.

Lemma length_showHex n a : length (showHex n a) = n.
Proof.
  revert a. induction n as [|n IH]; intros a; simpl; [reflexivity|].
  rewrite length_app, IH. simpl. lia.
Qed.

Lemma parseHex_app acc l1 l2 :
  parseHex acc (l1 ++ l2) = match parseHex acc l1 with
                            | Some x => parseHex x l2
                            | None => None
                            end.
Proof.
  revert acc. induction l1 as [|c l1 IH]; intros acc; simpl; [reflexivity|].
  destruct (hexValue c); [apply IH|reflexivity].
Qed.

(** Reading back [n] printed digits gives [a] modulo [16^n]. *)
Lemma parseHex_showHex acc n a :
  parseHex acc (showHex n a) = Some (acc * 16 ^ N.of_nat n + a mod 16 ^ N.of_nat n).
Proof.
  revert acc a. induction n as [|n IH]; intros acc a.
  - simpl. rewrite N.mod_1_r. f_equal. lia.
  - simpl showHex. rewrite parseHex_app, IH. simpl.
    rewrite hexValue_hexDigit by (apply N.mod_lt; lia). f_equal.
    rewrite Nat2N.inj_succ, N.pow_succ_r', N.mul_comm, N.Div0.mod_mul_r.
    pose proof (N.mod_lt a 16). nia.
Qed.

(** What [parseHex] returns is bounded by the number of digits read. *)
Lemma parseHex_bound acc l r :
  parseHex acc l = Some r -> r < (acc + 1) * 16 ^ N.of_nat (length l).
Proof.
  revert acc. induction l as [|c l IH]; intros acc H; simpl in H.
  - injection H as <-. simpl. lia.
  - destruct (hexValue c) as [d|] eqn:Hc; [|discriminate].
    apply IH in H. apply hexValue_lt in Hc.
    rewrite length_cons, Nat2N.inj_succ, N.pow_succ_r'. nia.
Qed.

(** Every address [parseAddress] reads fits in 160 bits. *)
Lemma parseAddress_bound x a : parseAddress x = Some a -> a < 2 ^ 160.
Proof.
  unfold parseAddress.
  destruct (list_ascii_of_string x) as [|c0 [|c1 ds]]; try discriminate.
  destruct (Ascii.eqb c0 _ && Ascii.eqb c1 _) eqn:Hp; simpl; [|discriminate].
  destruct (Nat.eqb_spec (length ds) 40) as [Hl|]; [|discriminate].
  intros H%parseHex_bound. rewrite Hl in H. simpl in H. lia.
Qed.

(** Printing then reading a 160-bit address gives it back. *)
Lemma parseAddress_showAddress a : a < 2 ^ 160 -> parseAddress (showAddress a) = Some a.
Proof.
  intros Ha. unfold parseAddress, showAddress.
  rewrite list_ascii_of_string_of_list_ascii. cbv beta iota.
  rewrite length_showHex. cbn -[showHex parseHex].
  rewrite parseHex_showHex, N.mod_small; [f_equal; lia|].
  replace (16 ^ N.of_nat 40) with (2 ^ 160) by reflexivity. exact Ha.
Qed.
