(* ===== verification/Script.v ===== *)
(** * The deploy script over the contract interface it calls

    [src/deploy.py] as a function of the contract it drives. The class
    [HypershareApi] is the Hypershare contract as the script sees it: its
    constructor and the three methods [main] calls, each returning what
    brownie reports for a transaction ([Receipt]: confirmed with the new
    storage, or reverted with the contract's error). [main] is written
    for any implementation of that interface, so the theorems of this file
    are about the script's own code: its transactions and the stop at
    the first revert ([main_as_runCalls]), what it prints
    ([main_printed]), how it links the two contracts
    ([main_links_contracts]) and which inputs its run depends on
    ([main_reads_accounts_0_4], [main_hs_addr_noninterference]). [Deploy.v] instantiates the interface
    with the contract model of [Hypershare.v].

    The reference semantics [runCalls] sends a list of calls until the
    first revert; [main_as_runCalls] shows the nested transactions of
    [main] are exactly [runCalls] on the script's three calls. Client-side
    failures of brownie (a call whose arguments it cannot encode) are not
    modelled: every call of [main] reaches the contract. *)

From Stdlib Require Import String.
From stdpp Require Import base list.
From Stdlib Require Import ZArith Lia.
From S2P Require Import Prelude Address.

Open Scope Z_scope.

Module Script.

(** What brownie reports for a transaction ([tx = HYPERSHARE.method(...)]):
    mined and confirmed with the contract's new storage, or reverted with
    the contract's error, which brownie raises. *)
Inductive Receipt (S E : Type) :=
  | Confirmed (s : S)
  | Reverted (e : E).
Arguments Confirmed {S E} s.
Arguments Reverted {S E} e.

(** The [Hypershare] contract imported from brownie, as the script calls
    it: [Hypershare.deploy(uri, registry, aux)], [setRegistry],
    [newToken] and [mintBatch]. *)
Class HypershareApi (S E : Type) := {
  hs_deploy : String.string -> Address -> Address -> S;
  hs_setRegistry : S -> Address -> Receipt S E;
  hs_newToken : S -> Z -> Z -> bool -> Receipt S E;
  hs_mintBatch : S -> list Address -> nat -> list N -> String.string -> Receipt S E
}.

(** The three transactions of [main], with their arguments. *)
Inductive Call :=
  | TxSetRegistry (registry : Address)
  | TxNewToken (shareholderLimit shareholdingMinimum : Z) (shareholdingNonDivisible : bool)
  | TxMintBatch (accounts : list Address) (id : nat) (amounts : list N)
      (data : String.string).

(** [HYPERSHARE.method(args)]: the call reaches the contract's method. *)
Definition send {S E} {api : HypershareApi S E} (s : S) (c : Call) : Receipt S E :=
  match c with
  | TxSetRegistry r => hs_setRegistry s r
  | TxNewToken limit minimum nonDiv => hs_newToken s limit minimum nonDiv
  | TxMintBatch accounts id amounts data => hs_mintBatch s accounts id amounts data
  end.

(** A transaction as brownie sends it: the signing account and the call. *)
Record Sent := mkSent {
  sender : Address;
  call : Call
}.

(** The storage of [HypershareRegistry]: the token it serves and its
    second constructor argument. *)
Record RegistryContract := mkRegistryContract {
  token : Address;
  registryAux : Address
}.

(** What running [main] leaves behind: the Hypershare storage, the
    registry contract, the printed lines, the transactions sent (a
    reverted one included: it was mined) and the error brownie raised. *)
Record ScriptResult (S E : Type) := mkScriptResult {
  hypershare : S;
  registryContract : RegistryContract;
  printed : list Address;
  sent : list Sent;
  raised : option E
}.
Arguments mkScriptResult {S E} _ _ _ _ _.
Arguments hypershare {S E} _.
Arguments registryContract {S E} _.
Arguments printed {S E} _.
Arguments sent {S E} _.
Arguments raised {S E} _.

(** [print(X.address)]: one more line on the script's output. *)
Definition print (out : list Address) (a : Address) : list Address := out ++ [a].

(** [ZERO_ADDR = "0x0000000000000000000000000000000000000000"]. *)
Definition ZERO_ADDR_literal : String.string :=
  "0x0000000000000000000000000000000000000000"%string.

(** The address brownie reads from [ZERO_ADDR] when it is passed to a
    constructor. *)
Definition ZERO_ADDR : Address := default 0%N (parseAddress ZERO_ADDR_literal).

Definition TOKEN_URI : String.string := "https://token-uri.com"%string.

(** The arguments of [newToken]. *)
Definition shareholderLimit_arg : Z := 10.
Definition shareholdingMinimum_arg : Z := 5000000000000000000.
Definition shareholdingNonDivisible_arg : bool := true.

(** The arguments of [mintBatch] other than the payees. *)
Definition mint_id : nat := 0%nat.
Definition mint_amounts : list N := [100; 200; 300; 400]%N.
Definition mint_data : String.string := "mint"%string.

Section Script.
(** brownie's [accounts], and the addresses the two deployments get. *)
Context (accounts : nat -> Address) (hs_addr reg_addr : Address).

Definition PAYEE1 : Address := accounts 1.
Definition PAYEE2 : Address := accounts 2.
Definition PAYEE3 : Address := accounts 3.
Definition PAYEE4 : Address := accounts 4.

(** [{"from": accounts[0]}]: the account that deploys both contracts;
    brownie signs the later calls on [HYPERSHARE] with it too. *)
Definition deployer : Address := accounts 0.

Definition mint_accounts : list Address := [PAYEE1; PAYEE2; PAYEE3; PAYEE4].

(** [HypershareRegistry.deploy(HYPERSHARE.address, ZERO_ADDR, {"from": accounts[0]})]. *)
Definition deployRegistry : RegistryContract := mkRegistryContract hs_addr ZERO_ADDR.

(** [HYPERSHARE.setRegistry(REGISTRY.address)]. *)
Definition setRegistryTx : Call := TxSetRegistry reg_addr.

(** [HYPERSHARE.newToken(10, 5000000000000000000, True)]. *)
Definition newTokenTx : Call :=
  TxNewToken shareholderLimit_arg shareholdingMinimum_arg shareholdingNonDivisible_arg.

(** [HYPERSHARE.mintBatch([PAYEE1, PAYEE2, PAYEE3, PAYEE4], 0, [100, 200, 300, 400], "mint")]. *)
Definition mintBatchTx : Call := TxMintBatch mint_accounts mint_id mint_amounts mint_data.

(** The script's transactions, in source order. *)
Definition scriptCalls : list Call := [setRegistryTx; newTokenTx; mintBatchTx].

Context {S E : Type} {api : HypershareApi S E}.

(** [Hypershare.deploy("https://token-uri.com", ZERO_ADDR, ZERO_ADDR, {"from": accounts[0]})]. *)
Definition deployHypershare : S := hs_deploy TOKEN_URI ZERO_ADDR ZERO_ADDR.

(** [tx = HYPERSHARE.method(...)]: brownie signs the call with the
    deployer (its default sender under [brownie run], the account that
    deployed the contract) and sends it; a confirmed call continues the
    script with the new storage, a revert raises and ends it. A reverted
    call was mined, so it is logged as sent. *)
Definition tx (reg : RegistryContract) (out : list Address) (log : list Sent)
    (s : S) (c : Call) (k : list Sent -> S -> ScriptResult S E) : ScriptResult S E :=
  let log' := log ++ [mkSent deployer c] in
  match send s c with
  | Confirmed s' => k log' s'
  | Reverted e => mkScriptResult s reg out log' (Some e)
  end.

(** [main()]: the two deployments and their [print]s, then the three
    transactions. *)
Definition main : ScriptResult S E :=
  let HYPERSHARE := deployHypershare in
  let out1 := print [] hs_addr in
  let REGISTRY := deployRegistry in
  let out2 := print out1 reg_addr in
  tx REGISTRY out2 [] HYPERSHARE setRegistryTx (fun log1 s1 =>
  tx REGISTRY out2 log1 s1 newTokenTx (fun log2 s2 =>
  tx REGISTRY out2 log2 s2 mintBatchTx (fun log3 s3 =>
  mkScriptResult s3 REGISTRY out2 log3 None))).

End Script.

(** ** Reference semantics: calls sent until the first revert *)

Section Reference.
Context {S E : Type} {api : HypershareApi S E}.

(** The last confirmed storage, the calls sent (the reverted one
    included) and the error, if one reverted. *)
Fixpoint runCalls (s : S) (cs : list Call) : S * list Call * option E :=
  match cs with
  | [] => (s, [], None)
  | c :: cs' =>
      match send s c with
      | Confirmed s' => let '(s'', done, err) := runCalls s' cs' in (s'', c :: done, err)
      | Reverted e => (s, [c], Some e)
      end
  end.

(** The storage after confirming every call of a list, if all confirm. *)
Fixpoint confirmAll (s : S) (cs : list Call) : option S :=
  match cs with
  | [] => Some s
  | c :: cs' =>
      match send s c with
      | Confirmed s' => confirmAll s' cs'
      | Reverted _ => None
      end
  end.

(** The result of a script that sends [cs] from [s0] signed by [dep]. *)
Definition finish (dep : Address) (reg : RegistryContract) (out : list Address)
    (s0 : S) (cs : list Call) : ScriptResult S E :=
  let '(s, done, err) := runCalls s0 cs in mkScriptResult s reg out (mkSent dep <$> done) err.

End Reference.

(** ** Theorems *)

Section Theorems.
Context {S E : Type} {api : HypershareApi S E}.

Lemma runCalls_head (s : S) c cs : head (runCalls s (c :: cs)).1.2 = Some c.
Proof.
  simpl. destruct (send s c); [destruct (runCalls _ cs) as [[??]?]|]; reflexivity.
Qed.

Lemma calls_of_sent dep (cs : list Call) : call <$> (mkSent dep <$> cs) = cs.
Proof. rewrite <- list_fmap_compose. apply list_fmap_id. Qed.

Lemma main_unfold accounts hs_addr reg_addr :
  main accounts hs_addr reg_addr =
    finish (deployer accounts) (deployRegistry hs_addr) [hs_addr; reg_addr]
      (deployHypershare (S:=S)) (scriptCalls accounts reg_addr).
Proof.
  unfold main, tx, finish, scriptCalls. cbn [runCalls app].
  destruct (send deployHypershare (setRegistryTx reg_addr)) as [s1|e]; [|reflexivity].
  destruct (send s1 newTokenTx) as [s2|e]; [|reflexivity].
  destruct (send s2 (mintBatchTx accounts)) as [s3|e]; reflexivity.
Qed.

(** After [rewrite main_unfold], [main_cases Hr] names the outcome
    [(s, d, err)] of the reference run, with the equation [Hr]. *)
Ltac main_cases Hr :=
  unfold finish;
  let s := fresh "s" in let d := fresh "d" in let err := fresh "err" in
  destruct (runCalls _ _) as [[s d] err] eqn:Hr;
  cbn [hypershare sent raised printed registryContract fst snd]; rewrite ?calls_of_sent.

(** C2: The nested transactions of [main] send the script's three calls in
    source order until the first revert: the storage it ends with, the
    calls it sent and the error it raised are those of the reference
    runner [runCalls], for every contract behind the interface. *)
Theorem main_as_runCalls accounts hs_addr reg_addr :
  let r := main (S:=S) (E:=E) accounts hs_addr reg_addr in
  (hypershare r, call <$> sent r, raised r) =
    runCalls deployHypershare (scriptCalls accounts reg_addr).
Proof.
  cbv zeta. rewrite !main_unfold. main_cases Hr. reflexivity.
Qed.

(** C9: Both addresses are printed, Hypershare's first, before any
    transaction: the output is the same whether or not a call reverts. *)
Theorem main_printed accounts hs_addr reg_addr :
  printed (main (S:=S) (E:=E) accounts hs_addr reg_addr) = [hs_addr; reg_addr].
Proof. rewrite !main_unfold. main_cases Hr. reflexivity. Qed.

(** C11: The two contracts are linked both ways: the registry is constructed
    with [HYPERSHARE.address], and the first transaction hands
    [REGISTRY.address] to the Hypershare contract. *)
Theorem main_links_contracts accounts hs_addr reg_addr :
  registryContract (main (S:=S) (E:=E) accounts hs_addr reg_addr) =
    mkRegistryContract hs_addr ZERO_ADDR /\
  head (sent (main (S:=S) (E:=E) accounts hs_addr reg_addr)) =
    Some (mkSent (accounts 0%nat) (TxSetRegistry reg_addr)).
Proof.
  pose proof (runCalls_head (deployHypershare (S:=S)) (setRegistryTx reg_addr)
                [newTokenTx; mintBatchTx accounts]) as Hh.
  unfold scriptCalls in Hh. rewrite !main_unfold. main_cases Hr. split; [reflexivity|].
  destruct d as [|c d]; simpl in Hh; [discriminate|]. injection Hh as ->. reflexivity.
Qed.

(** C4: [main] reads brownie's [accounts] only at indices 0 to 4: the
    deployer and the four payees. Two account lists that agree there give
    the same run, whatever the rest of the network holds. *)
Theorem main_reads_accounts_0_4 accounts1 accounts2 hs_addr reg_addr :
  (forall i, (i < 5)%nat -> accounts1 i = accounts2 i) ->
  main (S:=S) (E:=E) accounts1 hs_addr reg_addr = main accounts2 hs_addr reg_addr.
Proof.
  intros Hacc. unfold main, tx, deployer, mintBatchTx, mint_accounts, PAYEE1, PAYEE2, PAYEE3, PAYEE4.
  rewrite !Hacc by lia. reflexivity.
Qed.

(** C12: [main]'s effect on the contract does not depend on the address the
    Hypershare deployment gets: the final storage, the transactions sent
    and the error raised are the same for any [HYPERSHARE.address]. That
    address flows only into the console and the registry's constructor. *)
Theorem main_hs_addr_noninterference accounts hs_addr1 hs_addr2 reg_addr :
  hypershare (main (S:=S) (E:=E) accounts hs_addr1 reg_addr) =
    hypershare (main (S:=S) (E:=E) accounts hs_addr2 reg_addr) /\
  sent (main (S:=S) (E:=E) accounts hs_addr1 reg_addr) =
    sent (main (S:=S) (E:=E) accounts hs_addr2 reg_addr) /\
  raised (main (S:=S) (E:=E) accounts hs_addr1 reg_addr) =
    raised (main (S:=S) (E:=E) accounts hs_addr2 reg_addr).
Proof.
  rewrite !main_unfold. unfold finish.
  destruct (runCalls _ _) as [[s d] err]. repeat split.
Qed.

End Theorems.


End Script.
