(* ===== verification/Registry.v ===== *)
(** * TokenClassRegistry: per-class compliance policies and holder counts

    The registry stores, for every share class, the immutable compliance
    policy fixed when the class was created ([newToken] in the deploy
    script, [createClass] in the spec) and the current number of holders.
    The ledger reaches it only through the interface [ClassRegistry]: read
    a policy, read a holder count, adjust a holder count. This file gives
    the interface, its laws, and the concrete registry that satisfies them. *)

From stdpp Require Import base decidable gmap list.
From Stdlib Require Import ZArith Lia.
From S2P Require Import Prelude.

Open Scope Z_scope.

(** ** Policies *)

(** The compliance policy of one class: [shareholderLimit] (0 means
    unlimited), [shareholdingMinimum] (smallest non-zero balance) and
    [nonDivisible] (balances are whole units). *)
Record Policy := mkPolicy {
  shareholderLimit : Z;
  shareholdingMinimum : Z;
  nonDivisible : bool
}.

#[export] Instance Policy_eq_dec : EqDecision Policy.
Proof. solve_decision. Defined.

(** ** The interface the ledger uses *)

Class ClassRegistry (R : Type) := {
  policy_of : R -> ClassId -> result Policy;
  holder_count : R -> ClassId -> Z;
  adjust_holder_count : R -> ClassId -> Z -> R
}.

(** What the registry promises: adjusting a count changes neither the
    policies nor the other classes' counts. *)
Class ClassRegistryLaws (R : Type) `{!ClassRegistry R} := {
  policy_of_adjust r c d c' :
    policy_of (adjust_holder_count r c d) c' = policy_of r c';
  holder_count_adjust r c d c' :
    holder_count (adjust_holder_count r c d) c' =
      holder_count r c' + (if decide (c = c') then d else 0)
}.

(** ** The concrete registry *)

Module TokenRegistry.

(** [classes] is indexed by class id (ids are sequential from 0);
    [holderCounts] maps a class id to its holder count, absent = 0. *)
Record Registry := mkRegistry {
  classes : list Policy;
  holderCounts : gmap ClassId Z
}.

Definition empty : Registry := mkRegistry [] ∅.

(** [createClass(limit, minimum, nonDivisible) -> classId]. *)
Definition createClass (limit minimum : Z) (nonDiv : bool) (r : Registry)
    : result (ClassId * Registry) :=
  fail_when (limit < 0 \/ minimum < 0) with InvalidParameters ;;
  let id := length (classes r) in
  Ok (id, mkRegistry (classes r ++ [mkPolicy limit minimum nonDiv])
                     (holderCounts r)).

(** [getPolicy(classId)], failing with [UnknownClass]. *)
Definition getPolicy (r : Registry) (c : ClassId) : result Policy :=
  match classes r !! c with
  | Some p => Ok p
  | None => Err UnknownClass
  end.

(** [holderCount(classId)]. *)
Definition holderCount (r : Registry) (c : ClassId) : Z :=
  default 0 (holderCounts r !! c).

(** [incrementHolderCount] / [decrementHolderCount], as one adjustment
    by the decision's delta in {-1, 0, +1}. *)
Definition adjustHolderCount (r : Registry) (c : ClassId) (d : Z) : Registry :=
  mkRegistry (classes r) (<[c := holderCount r c + d]> (holderCounts r)).

#[export] Instance Registry_ClassRegistry : ClassRegistry Registry := {
  policy_of := getPolicy;
  holder_count := holderCount;
  adjust_holder_count := adjustHolderCount
}.

#[export] Instance Registry_laws : ClassRegistryLaws Registry.
Proof.
  split.
  - reflexivity.
  - intros r c d c'. simpl. unfold holderCount at 1, adjustHolderCount. simpl.
    destruct (decide (c = c')) as [<-|Hne].
    + rewrite lookup_insert_eq. simpl. reflexivity.
    + rewrite lookup_insert_ne by exact Hne. fold (holderCount r c'). lia.
Qed.

(** ** Theorems *)

(** Creating a class succeeds exactly on valid parameters, assigns the
    next sequential id, and afterwards [getPolicy] returns the policy
    just stored; the other classes and every holder count are as before. *)
Lemma createClass_Ok limit minimum nonDiv r id r' :
  createClass limit minimum nonDiv r = Ok (id, r') <->
  0 <= limit /\ 0 <= minimum /\ id = length (classes r) /\
  r' = mkRegistry (classes r ++ [mkPolicy limit minimum nonDiv]) (holderCounts r).
Proof.
  unfold createClass. case_bool_decide; simpl; split.
  - discriminate.
  - intros; exfalso; lia.
  - intros [= <- <-]. repeat split; lia.
  - intros (_ & _ & -> & ->). reflexivity.
Qed.

Lemma createClass_lookup limit minimum nonDiv r id r' :
  createClass limit minimum nonDiv r = Ok (id, r') ->
  getPolicy r id = Err UnknownClass /\
  getPolicy r' id = Ok (mkPolicy limit minimum nonDiv) /\
  (forall c, c <> id -> getPolicy r' c = getPolicy r c) /\
  (forall c, holderCount r' c = holderCount r c).
Proof.
  intros (_ & _ & -> & ->)%createClass_Ok. unfold getPolicy, holderCount; simpl.
  rewrite lookup_ge_None_2 by lia. split; [reflexivity|]. split.
  - rewrite lookup_app_r by lia. rewrite Nat.sub_diag. reflexivity.
  - split; [|reflexivity]. intros c Hc.
    destruct (decide (c < length (classes r))%nat).
    + rewrite lookup_app_l by lia. reflexivity.
    + rewrite !lookup_ge_None_2; [reflexivity|lia|].
      rewrite length_app; simpl; lia.
Qed.

(** Round trip: the id [createClass] returns is the next sequential one,
    and [getPolicy] on it returns exactly the policy that was passed. *)
Theorem createClass_roundtrip limit minimum nonDiv r id r' :
  createClass limit minimum nonDiv r = Ok (id, r') ->
  id = length (classes r) /\ getPolicy r' id = Ok (mkPolicy limit minimum nonDiv).
Proof.
  intros Hc. split; [apply createClass_Ok in Hc; tauto|].
  apply (createClass_lookup _ _ _ _ _ _ Hc).
Qed.

(** A policy, once stored, is not changed by a later class creation
    (holder-count adjustments leave policies alone by [policy_of_adjust]). *)
Lemma createClass_preserves_policy limit minimum nonDiv r id r' c p :
  createClass limit minimum nonDiv r = Ok (id, r') ->
  getPolicy r c = Ok p -> getPolicy r' c = Ok p.
Proof.
  intros Hc Hp. destruct (createClass_lookup _ _ _ _ _ _ Hc) as (Hn & _ & Ho & _).
  rewrite Ho; [exact Hp|]. intros ->. congruence.
Qed.

(** Class creation fails, with [InvalidParameters], exactly when the
    limit or the minimum is negative. *)
Theorem createClass_Err limit minimum nonDiv r e :
  createClass limit minimum nonDiv r = Err e <->
  (limit < 0 \/ minimum < 0) /\ e = InvalidParameters.
Proof.
  unfold createClass. case_bool_decide; simpl; split.
  - intros [= <-]. auto.
  - intros [_ ->]. reflexivity.
  - discriminate.
  - intros [? _]. contradiction.
Qed.

End TokenRegistry.
