(* ===== verification/Compliance.v ===== *)
(** * ComplianceEngine: the pure decision function

    [validate] decides whether a proposed balance change is admissible
    under a class's policy, and computes the resulting balance and the
    change of the holder count. It has no side effect: the ledger applies
    the decision (Ledger.v), the batch coordinator runs it on a scratch
    copy first (Batch.v). *)

From stdpp Require Import base decidable gmap list.
From Stdlib Require Import ZArith Lia.
From S2P Require Import Prelude Registry.

Open Scope Z_scope.

(** One whole share: the ledger counts in units of [10^18] (the deploy
    script's minimum holding 5000000000000000000 is five whole shares). *)
Definition UNIT : Z := 10 ^ 18.

(** The outcome of a successful validation. *)
Record Decision := mkDecision {
  newBalance : Z;
  holderCountDelta : Z
}.

(** [validate(policy, currentBalance, delta, currentHolderCount)]. The
    checks are made in the order the spec lists them; the first one that
    fails decides the error. *)
Definition validate (p : Policy) (cur delta count : Z) : result Decision :=
  let nb := cur + delta in
  fail_when (nb < 0) with NegativeBalance ;;
  fail_when (nonDivisible p = true /\ nb mod UNIT <> 0) with DivisibilityViolation ;;
  fail_when (0 < nb /\ nb < shareholdingMinimum p) with BelowMinimumHolding ;;
  fail_when (cur = 0 /\ 0 < nb /\ 0 < shareholderLimit p /\
             shareholderLimit p < count + 1) with ShareholderLimitExceeded ;;
  Ok (mkDecision nb
        (if bool_decide (cur = 0 /\ 0 < nb) then 1
         else if bool_decide (0 < cur /\ nb = 0) then -1
         else 0)).

(** The errors the compliance rules raise. *)
Definition complianceError (e : Error) : bool :=
  match e with
  | NegativeBalance | DivisibilityViolation | BelowMinimumHolding
  | ShareholderLimitExceeded => true
  | _ => false
  end.

(** Whether a balance makes its owner a holder, as 0 or 1. *)
Definition holder (b : Z) : Z := if bool_decide (0 < b) then 1 else 0.

(** A balance admissible under a policy: non-negative, and when positive
    at least the minimum and a whole number of units if the class is
    non-divisible. *)
Definition admissible (p : Policy) (b : Z) : Prop :=
  0 <= b /\ (0 < b -> shareholdingMinimum p <= b /\
                     (nonDivisible p = true -> b mod UNIT = 0)).

(** The four rules of [validate], as a proposition. *)
Definition compliant (p : Policy) (cur delta count : Z) : Prop :=
  0 <= cur + delta /\
  (nonDivisible p = true -> (cur + delta) mod UNIT = 0) /\
  (0 < cur + delta -> shareholdingMinimum p <= cur + delta) /\
  (cur = 0 -> 0 < cur + delta -> 0 < shareholderLimit p ->
     count + 1 <= shareholderLimit p).

(** The holder-count delta [validate] returns. *)
Definition entryDelta (cur delta : Z) : Z :=
  if bool_decide (cur = 0 /\ 0 < cur + delta) then 1
  else if bool_decide (0 < cur /\ cur + delta = 0) then -1 else 0.

(** ** Theorems *)

Lemma holder_cases b : (0 < b /\ holder b = 1) \/ (b <= 0 /\ holder b = 0).
Proof. unfold holder. case_bool_decide; [left|right]; lia. Qed.

Lemma validate_Ok_elim p cur delta count d :
  validate p cur delta count = Ok d ->
  compliant p cur delta count /\ d = mkDecision (cur + delta) (entryDelta cur delta).
Proof.
  unfold validate. intros H. inv_result. subst d. split; [|reflexivity].
  repeat split; intros; try lia.
  destruct (decide ((cur + delta) mod UNIT = 0)); tauto.
Qed.

Lemma validate_Ok_intro p cur delta count :
  compliant p cur delta count ->
  validate p cur delta count = Ok (mkDecision (cur + delta) (entryDelta cur delta)).
Proof.
  unfold validate, entryDelta. intros (H1 & H2 & H3 & H4).
  repeat case_bool_decide; simpl; try reflexivity; exfalso; first [lia | tauto].
Qed.

(** [validate] succeeds exactly when the four rules hold, and then
    returns the new balance with the holder-count delta: +1 when the
    account enters the holder set, -1 when it leaves it, 0 otherwise. *)
Theorem validate_Ok p cur delta count d :
  validate p cur delta count = Ok d <->
  compliant p cur delta count /\ d = mkDecision (cur + delta) (entryDelta cur delta).
Proof.
  split; [apply validate_Ok_elim|].
  intros [Hc ->]. apply validate_Ok_intro, Hc.
Qed.

(** Every accepted balance is admissible under the policy. *)
Lemma validate_admissible p cur delta count d :
  validate p cur delta count = Ok d -> admissible p (newBalance d).
Proof.
  intros ((H1 & H2 & H3 & _) & ->)%validate_Ok_elim. unfold admissible; simpl. auto.
Qed.

(** For a non-negative current balance the holder-count delta is exactly
    the change of holder status: +1 on entering, -1 on leaving. *)
Lemma validate_delta p cur delta count d :
  0 <= cur -> validate p cur delta count = Ok d ->
  holderCountDelta d = holder (newBalance d) - holder cur.
Proof.
  intros Hcur ((H1 & _) & ->)%validate_Ok_elim. simpl. unfold holder, entryDelta.
  repeat case_bool_decide; lia.
Qed.

(** An accepted change never pushes the holder count above a non-zero
    shareholder limit it respected before. *)
Lemma validate_limit p cur delta count d :
  validate p cur delta count = Ok d ->
  0 < shareholderLimit p -> count <= shareholderLimit p ->
  count + holderCountDelta d <= shareholderLimit p.
Proof.
  intros ((_ & _ & _ & H4) & ->)%validate_Ok_elim Hl Hc. simpl. unfold entryDelta.
  repeat case_bool_decide; destruct_and?;
    try specialize (H4 ltac:(assumption) ltac:(assumption) Hl); lia.
Qed.

(** The error reported is the first rule violated, in the spec's order. *)
Lemma validate_Err p cur delta count e :
  validate p cur delta count = Err e <->
  (cur + delta < 0 /\ e = NegativeBalance) \/
  (0 <= cur + delta /\ nonDivisible p = true /\ (cur + delta) mod UNIT <> 0 /\
     e = DivisibilityViolation) \/
  (0 <= cur + delta /\ (nonDivisible p = true -> (cur + delta) mod UNIT = 0) /\
     0 < cur + delta < shareholdingMinimum p /\ e = BelowMinimumHolding) \/
  (0 <= cur + delta /\ (nonDivisible p = true -> (cur + delta) mod UNIT = 0) /\
     shareholdingMinimum p <= cur + delta /\ cur = 0 /\ 0 < cur + delta /\
     0 < shareholderLimit p < count + 1 /\ e = ShareholderLimitExceeded).
Proof.
  unfold validate. split.
  - repeat case_bool_decide; simpl; intros [= <-]; solve_disj.
  - repeat case_bool_decide; simpl; intros Hd;
      repeat match goal with H : _ \/ _ |- _ => destruct H end;
      destruct_and?; subst; try reflexivity; exfalso; first [lia | tauto].
Qed.


(** A non-negative result that is not a whole unit of a non-divisible
    class is refused by the divisibility rule. *)
Lemma validate_fractional p cur delta count :
  0 <= cur + delta -> nonDivisible p = true -> (cur + delta) mod UNIT <> 0 ->
  validate p cur delta count = Err DivisibilityViolation.
Proof.
  intros Hnn Hnd Hm. unfold validate.
  rewrite (bool_decide_eq_false_2 (cur + delta < 0)) by lia. simpl.
  rewrite (bool_decide_eq_true_2 (nonDivisible p = true /\ _)) by tauto. reflexivity.
Qed.

(** [validate] only ever reports one of the four compliance errors. *)
Lemma validate_Err_kind p cur delta count e :
  validate p cur delta count = Err e -> complianceError e = true.
Proof. intros He%validate_Err. destruct_or! He; destruct_and! He; subst; reflexivity. Qed.

(** Adding a positive amount below one unit to a whole number of units
    does not give a whole number of units. *)
Lemma whole_plus_fraction b x :
  b mod UNIT = 0 -> 0 < x < UNIT -> (b + x) mod UNIT <> 0.
Proof.
  intros Hb Hx. rewrite Z.add_mod by (unfold UNIT; lia).
  rewrite Hb, Z.add_0_l, Z.mod_mod, Z.mod_small by (unfold UNIT in *; lia). lia.
Qed.

(** One accepted change adds at most one holder. *)
Lemma entryDelta_le cur delta : entryDelta cur delta <= 1.
Proof. unfold entryDelta. repeat case_bool_decide; lia. Qed.

