(* ===== verification/Ledger.v ===== *)
(** * Ledger: per-(class, account) balances gated by the compliance engine

    The ledger owns the balance table and a registry (any [ClassRegistry]
    satisfying its laws). Every balance change goes through [decideDelta]
    (policy lookup + [validate]) and is committed by [commit], which writes
    the new balance and adjusts the holder count together. [mint] and
    [transfer] are built from these. The invariant [wf] is the spec's
    global invariant; every operation preserves it. *)

From stdpp Require Import base decidable gmap sets list.
From Stdlib Require Import ZArith Lia.
From S2P Require Import Prelude Registry Compliance.

Open Scope Z_scope.

Section Ledger.
Context {R : Type} `{ClassRegistryLaws R}.

(** [balances] is [_balances[classId][account]]; a missing entry is 0. *)
Record Ledger := mkLedger {
  registry : R;
  balances : gmap ClassId (gmap Address Z)
}.

Definition classBalances (st : Ledger) (c : ClassId) : gmap Address Z :=
  default ∅ (balances st !! c).

(** [balanceOf(account, classId)]. *)
Definition balanceOf (st : Ledger) (a : Address) (c : ClassId) : Z :=
  default 0 (classBalances st c !! a).

(** The holder set of a balance table: accounts with a positive balance. *)
Definition holders (m : gmap Address Z) : gset Address :=
  dom (filter (fun kv => 0 < kv.2) m).

Definition holdersOf (st : Ledger) (c : ClassId) : gset Address :=
  holders (classBalances st c).

(** The number of units of a class in circulation (a measure used by
    the theorems, not a stored quantity). *)
Definition supply (st : Ledger) (c : ClassId) : Z :=
  map_fold (fun _ v acc => v + acc) 0 (classBalances st c).

(** Validation of one balance change against the current state. *)
Definition decideDelta (st : Ledger) (a : Address) (c : ClassId) (delta : Z)
    : result Decision :=
  p ← policy_of (registry st) c ;
  validate p (balanceOf st a c) delta (holder_count (registry st) c).

(** Commit of a decision: balance and holder count change together. *)
Definition commit (st : Ledger) (a : Address) (c : ClassId) (d : Decision) : Ledger :=
  mkLedger (adjust_holder_count (registry st) c (holderCountDelta d))
           (<[c := <[a := newBalance d]> (classBalances st c)]> (balances st)).

(** [Ledger.apply(delta)]: validate, then commit. *)
Definition applyDelta (st : Ledger) (a : Address) (c : ClassId) (delta : Z)
    : result Ledger :=
  d ← decideDelta st a c delta ;
  Ok (commit st a c d).

(** [mint(account, classId, amount)]: amount must be positive. *)
Definition mint (st : Ledger) (a : Address) (c : ClassId) (amount : N)
    : result Ledger :=
  fail_when (amount = 0%N) with InvalidParameters ;;
  applyDelta st a c (Z.of_N amount).

(** [transfer(from, to, classId, amount)]: self-transfers are rejected;
    the debit is checked against the balance first, then both deltas
    are validated in order, the credit against the state after the
    debit. *)
Definition transfer (st : Ledger) (from to : Address) (c : ClassId) (amount : N)
    : result Ledger :=
  fail_when (from = to) with SelfTransferNotAllowed ;;
  _ ← policy_of (registry st) c ;
  fail_when (balanceOf st from c < Z.of_N amount) with InsufficientBalance ;;
  st1 ← applyDelta st from c (- Z.of_N amount) ;
  applyDelta st1 to c (Z.of_N amount).

(** The global invariant of the spec, for every class: the stored
    holder count is the size of the holder set, balances are
    non-negative, every positive balance is admissible under the class
    policy, and a non-zero shareholder limit bounds the holder count. *)
Record wf (st : Ledger) : Prop := {
  wf_count c : holder_count (registry st) c = Z.of_nat (size (holdersOf st c));
  wf_nonneg c a b : classBalances st c !! a = Some b -> 0 <= b;
  wf_admissible c a b : classBalances st c !! a = Some b -> 0 < b ->
    exists p, policy_of (registry st) c = Ok p /\ admissible p b;
  wf_limit c p : policy_of (registry st) c = Ok p -> 0 < shareholderLimit p ->
    holder_count (registry st) c <= shareholderLimit p
}.

(** ** Holder sets *)

Lemma elem_of_holders (m : gmap Address Z) x :
  x ∈ holders m <-> exists b, m !! x = Some b /\ 0 < b.
Proof.
  unfold holders. rewrite elem_of_dom. split.
  - intros [b Hb]. apply map_lookup_filter_Some in Hb. eauto.
  - intros (b & Hb & Hp). exists b. apply map_lookup_filter_Some. auto.
Qed.

Lemma holder_lookup (m : gmap Address Z) a :
  holder (default 0 (m !! a)) = if bool_decide (a ∈ holders m) then 1 else 0.
Proof.
  unfold holder. repeat case_bool_decide; try reflexivity; exfalso;
    match goal with H : context [holders m] |- _ => rewrite elem_of_holders in H end;
    destruct (m !! a); simpl in *; naive_solver lia.
Qed.

Lemma holders_insert (m : gmap Address Z) a v :
  holders (<[a:=v]> m) =
    if bool_decide (0 < v) then {[a]} ∪ holders m else holders m ∖ {[a]}.
Proof.
  apply set_eq. intros x.
  case_bool_decide;
    rewrite ?elem_of_union, ?elem_of_difference, elem_of_singleton, !elem_of_holders;
    (destruct (decide (x = a)) as [->|Hne];
     [rewrite lookup_insert_eq | rewrite lookup_insert_ne by congruence]);
    naive_solver lia.
Qed.

Lemma size_holders_remove (X : gset Address) a :
  a ∈ X -> size X = S (size (X ∖ {[a]})).
Proof.
  intros Ha. rewrite (union_difference_singleton_L a X Ha) at 1.
  rewrite size_union by set_solver. rewrite size_singleton. lia.
Qed.

(** Writing [v] at [a] changes the number of holders by the change of
    [a]'s holder status. *)
Lemma size_holders_insert (m : gmap Address Z) a v :
  Z.of_nat (size (holders (<[a:=v]> m))) =
    Z.of_nat (size (holders m)) + holder v - holder (default 0 (m !! a)).
Proof.
  rewrite holders_insert, holder_lookup. unfold holder.
  destruct (decide (a ∈ holders m)) as [Hin|Hout].
  - rewrite (size_holders_remove (holders m) a Hin).
    repeat case_bool_decide; try contradiction.
    + replace ({[a]} ∪ holders m) with (holders m) by set_solver.
      rewrite (size_holders_remove (holders m) a Hin). lia.
    + lia.
  - repeat case_bool_decide; try contradiction.
    + rewrite size_union by set_solver. rewrite size_singleton. lia.
    + rewrite difference_disjoint_L by set_solver. lia.
Qed.

(** ** Commit *)

Lemma classBalances_commit st a c d c' :
  classBalances (commit st a c d) c' =
    if decide (c = c') then <[a := newBalance d]> (classBalances st c)
    else classBalances st c'.
Proof.
  unfold classBalances at 1, commit; simpl.
  destruct (decide (c = c')) as [<-|Hne].
  - rewrite lookup_insert_eq. reflexivity.
  - rewrite lookup_insert_ne by exact Hne. reflexivity.
Qed.

Lemma balanceOf_commit st a c d a' c' :
  balanceOf (commit st a c d) a' c' =
    if decide (c = c' /\ a = a') then newBalance d else balanceOf st a' c'.
Proof.
  unfold balanceOf at 1. rewrite classBalances_commit.
  destruct (decide (c = c')) as [<-|Hc], (decide (a = a')) as [<-|Ha];
    rewrite ?lookup_insert_eq, ?lookup_insert_ne by congruence;
    rewrite ?decide_True, ?decide_False by tauto; reflexivity.
Qed.

Lemma policy_of_commit st a c d c' :
  policy_of (registry (commit st a c d)) c' = policy_of (registry st) c'.
Proof. apply policy_of_adjust. Qed.

Lemma holder_count_commit st a c d c' :
  holder_count (registry (commit st a c d)) c' =
    holder_count (registry st) c' + (if decide (c = c') then holderCountDelta d else 0).
Proof. apply holder_count_adjust. Qed.

Lemma decideDelta_Ok st a c delta d :
  decideDelta st a c delta = Ok d <->
  exists p, policy_of (registry st) c = Ok p /\
    validate p (balanceOf st a c) delta (holder_count (registry st) c) = Ok d.
Proof. apply bind_Ok. Qed.

Lemma wf_balance_nonneg st a c : wf st -> 0 <= balanceOf st a c.
Proof.
  intros Hwf. unfold balanceOf.
  destruct (classBalances st c !! a) eqn:E; simpl; [eapply wf_nonneg; eauto|lia].
Qed.

(** In a well-formed ledger every balance of a class is admissible
    under the class policy. *)
Lemma wf_balance_admissible st a c p :
  wf st -> policy_of (registry st) c = Ok p -> admissible p (balanceOf st a c).
Proof.
  intros Hwf Hp. unfold balanceOf.
  destruct (classBalances st c !! a) as [b|] eqn:E; simpl; [|split; lia].
  destruct (decide (0 < b)) as [Hpos|Hpos].
  - destruct (wf_admissible _ Hwf c a b E Hpos) as (p' & Hp' & Ha). congruence.
  - pose proof (wf_nonneg _ Hwf c a b E). split; lia.
Qed.

(** Committing an accepted decision preserves the global invariant:
    this is the step every operation of the ledger is made of. *)
Lemma commit_wf st a c delta d :
  wf st -> decideDelta st a c delta = Ok d -> wf (commit st a c d).
Proof.
  intros Hwf (p & Hp & Hv)%decideDelta_Ok.
  pose proof (wf_balance_nonneg st a c Hwf) as Hcur.
  pose proof (validate_admissible _ _ _ _ _ Hv) as Hadm.
  pose proof (validate_delta _ _ _ _ _ Hcur Hv) as Hdelta.
  split.
  - intros c'. rewrite holder_count_commit, (wf_count _ Hwf c').
    unfold holdersOf. rewrite classBalances_commit.
    destruct (decide (c = c')) as [<-|]; [|lia].
    rewrite size_holders_insert. unfold balanceOf in Hdelta. lia.
  - intros c' a' b. rewrite classBalances_commit.
    destruct (decide (c = c')) as [<-|]; [|apply (wf_nonneg _ Hwf)].
    destruct (decide (a = a')) as [<-|];
      [rewrite lookup_insert_eq; intros [= <-]; apply Hadm
      |rewrite lookup_insert_ne by congruence; apply (wf_nonneg _ Hwf)].
  - intros c' a' b. rewrite classBalances_commit, policy_of_commit.
    destruct (decide (c = c')) as [<-|]; [|apply (wf_admissible _ Hwf)].
    destruct (decide (a = a')) as [<-|];
      [rewrite lookup_insert_eq; intros [= <-] _; eauto
      |rewrite lookup_insert_ne by congruence; apply (wf_admissible _ Hwf)].
  - intros c' p'. rewrite policy_of_commit, holder_count_commit.
    destruct (decide (c = c')) as [<-|]; [|rewrite Z.add_0_r; apply (wf_limit _ Hwf)].
    rewrite Hp. intros [= <-] Hl.
    apply (validate_limit _ _ _ _ _ Hv Hl), (wf_limit _ Hwf c p Hp Hl).
Qed.

(** ** Single balance changes *)

Lemma applyDelta_Ok st a c delta st' :
  applyDelta st a c delta = Ok st' <->
  exists d, decideDelta st a c delta = Ok d /\ st' = commit st a c d.
Proof.
  unfold applyDelta. rewrite bind_Ok. split.
  - intros (d & Hd & [= <-]). eauto.
  - intros (d & Hd & ->). eauto.
Qed.

Lemma applyDelta_wf st a c delta st' :
  wf st -> applyDelta st a c delta = Ok st' -> wf st'.
Proof. intros Hwf (d & Hd & ->)%applyDelta_Ok. eapply commit_wf; eauto. Qed.

Lemma applyDelta_balance st a c delta st' a' c' :
  applyDelta st a c delta = Ok st' ->
  balanceOf st' a' c' =
    if decide (c = c' /\ a = a') then balanceOf st a c + delta else balanceOf st a' c'.
Proof.
  intros (d & (p & _ & Hv)%decideDelta_Ok & ->)%applyDelta_Ok.
  apply validate_Ok_elim in Hv as (_ & ->).
  rewrite balanceOf_commit. reflexivity.
Qed.

Lemma applyDelta_policy st a c delta st' c' :
  applyDelta st a c delta = Ok st' ->
  policy_of (registry st') c' = policy_of (registry st) c'.
Proof. intros (d & _ & ->)%applyDelta_Ok. apply policy_of_commit. Qed.

Lemma sum_insert (m : gmap Address Z) a v :
  map_fold (fun _ v acc => v + acc) 0 (<[a:=v]> m) =
    map_fold (fun _ v acc => v + acc) 0 m - default 0 (m !! a) + v.
Proof.
  destruct (m !! a) as [old|] eqn:E; simpl.
  - rewrite <- insert_delete_eq.
    rewrite <- (insert_delete_id m a old E) at 2.
    rewrite !map_fold_insert_L by (intros; lia || apply lookup_delete_eq).
    lia.
  - rewrite map_fold_insert_L by (intros; lia || exact E). lia.
Qed.

Lemma applyDelta_supply st a c delta st' c' :
  applyDelta st a c delta = Ok st' ->
  supply st' c' = supply st c' + (if decide (c = c') then delta else 0).
Proof.
  intros (d & (p & _ & Hv)%decideDelta_Ok & ->)%applyDelta_Ok.
  apply validate_Ok_elim in Hv as (_ & ->).
  unfold supply. rewrite classBalances_commit.
  destruct (decide (c = c')) as [<-|]; [|lia].
  rewrite sum_insert. unfold balanceOf. simpl. lia.
Qed.

(** ** Mint *)

(** minting preserves the global invariant. *)
Theorem mint_wf st a c amount st' :
  wf st -> mint st a c amount = Ok st' -> wf st'.
Proof. unfold mint. intros Hwf Hop. inv_result. eapply applyDelta_wf; eauto. Qed.

(** a successful mint credits exactly the minted account in the
    minted class, and leaves every other balance unchanged. *)
Theorem mint_balance st a c amount st' a' c' :
  mint st a c amount = Ok st' ->
  balanceOf st' a' c' =
    if decide (c = c' /\ a = a') then balanceOf st a c + Z.of_N amount
    else balanceOf st a' c'.
Proof. unfold mint. intros Hop. inv_result. eapply applyDelta_balance; eauto. Qed.

(** a successful mint adds one holder exactly when the recipient
    held nothing before. *)
Theorem mint_holder_count st a c amount st' :
  wf st -> mint st a c amount = Ok st' ->
  holder_count (registry st') c =
    holder_count (registry st) c + (if decide (balanceOf st a c = 0) then 1 else 0).
Proof.
  unfold mint. intros Hwf Hop. inv_result.
  apply applyDelta_Ok in Hop as (d & (p & _ & Hv)%decideDelta_Ok & ->).
  pose proof (wf_balance_nonneg st a c Hwf) as Hcur.
  rewrite holder_count_commit, decide_True by reflexivity.
  rewrite (validate_delta _ _ _ _ _ Hcur Hv).
  apply validate_Ok_elim in Hv as (_ & ->). simpl. unfold holder, entryDelta.
  repeat case_bool_decide; case_decide; lia.
Qed.

(** the ledger never rejects a compliant mint: a positive amount
    into a known class whose resulting balance is admissible and, for
    a new holder, fits under the shareholder limit, succeeds. *)
Theorem mint_complete st a c amount p :
  policy_of (registry st) c = Ok p -> amount <> 0%N ->
  admissible p (balanceOf st a c + Z.of_N amount) ->
  (balanceOf st a c = 0 -> 0 < shareholderLimit p ->
     holder_count (registry st) c + 1 <= shareholderLimit p) ->
  exists st', mint st a c amount = Ok st'.
Proof.
  intros Hp Hamt (Hnn & Hpos) Hlim. unfold mint.
  rewrite bool_decide_eq_false_2 by exact Hamt. simpl.
  unfold applyDelta, decideDelta. rewrite Hp. simpl.
  eexists. apply bind_Ok. eexists. split; [|reflexivity].
  apply validate_Ok_intro. split; [lia|]. split; [|split].
  - intros Hnd. destruct (decide (balanceOf st a c + Z.of_N amount = 0)) as [->|].
    + reflexivity.
    + apply Hpos; [lia|exact Hnd].
  - intros Hb. apply Hpos, Hb.
  - intros Hz _ Hl. apply Hlim; auto.
Qed.

(** ** Transfer *)

Lemma transfer_Ok st from to c amount st' :
  transfer st from to c amount = Ok st' ->
  from <> to /\ Z.of_N amount <= balanceOf st from c /\
  exists st1, applyDelta st from c (- Z.of_N amount) = Ok st1 /\
              applyDelta st1 to c (Z.of_N amount) = Ok st'.
Proof. unfold transfer. intros Hop. inv_result. split; [done|]. split; [lia|]. eauto. Qed.

(** transferring preserves the global invariant. *)
Theorem transfer_wf st from to c amount st' :
  wf st -> transfer st from to c amount = Ok st' -> wf st'.
Proof.
  intros Hwf (_ & _ & st1 & H1 & H2)%transfer_Ok.
  eapply applyDelta_wf; [eapply applyDelta_wf|]; eauto.
Qed.

(** a successful transfer moves [amount] from [from] to [to] in
    class [c] and changes no other balance. *)
Theorem transfer_balance st from to c amount st' a' c' :
  transfer st from to c amount = Ok st' ->
  balanceOf st' a' c' =
    if decide (c = c' /\ a' = from) then balanceOf st from c - Z.of_N amount
    else if decide (c = c' /\ a' = to) then balanceOf st to c + Z.of_N amount
    else balanceOf st a' c'.
Proof.
  intros (Hne & _ & st1 & H1 & H2)%transfer_Ok.
  rewrite (applyDelta_balance _ _ _ _ _ _ _ H2), !(applyDelta_balance _ _ _ _ _ _ _ H1).
  repeat case_decide; destruct_and?; subst; try congruence; try lia; tauto.
Qed.

(** a transfer conserves the supply of every class. *)
Theorem transfer_supply st from to c amount st' c' :
  transfer st from to c amount = Ok st' -> supply st' c' = supply st c'.
Proof.
  intros (_ & _ & st1 & H1 & H2)%transfer_Ok.
  rewrite (applyDelta_supply _ _ _ _ _ _ H2), (applyDelta_supply _ _ _ _ _ _ H1).
  case_decide; lia.
Qed.

(** A transfer is refused with [SelfTransferNotAllowed] when sender and
    recipient coincide, and otherwise, for a known class, with
    [InsufficientBalance] when the sender holds less than the amount;
    both before any balance is validated. *)
Theorem transfer_guards st from to c amount p :
  (from = to -> transfer st from to c amount = Err SelfTransferNotAllowed) /\
  (from <> to -> policy_of (registry st) c = Ok p ->
     balanceOf st from c < Z.of_N amount ->
     transfer st from to c amount = Err InsufficientBalance).
Proof.
  unfold transfer. split.
  - intros ->. rewrite (bool_decide_eq_true_2 (to = to)) by reflexivity. reflexivity.
  - intros Hne Hp Hlt. rewrite (bool_decide_eq_false_2 (from = to)) by exact Hne. simpl.
    rewrite Hp. simpl. rewrite (bool_decide_eq_true_2 (_ < _)) by exact Hlt. reflexivity.
Qed.

End Ledger.

Arguments Ledger : clear implicits.

#[export] Hint Resolve wf_balance_nonneg commit_wf applyDelta_wf : hs.
