(* ===== verification/Batch.v ===== *)
(** * BatchCoordinator: atomic multi-entry operations

    [applyBatch] is the two-phase algorithm of the spec: [simulate] runs
    [validate] on every entry, in input order, against a scratch copy of
    the ledger that sees the effects of the earlier entries; only when
    every entry is accepted does [commitAll] write the recorded decisions
    to the real ledger. [applySeq] is the reference semantics: apply the
    entries one after the other, stopping at the first failure. The main
    theorem is that the two agree, which gives atomicity, the input-order
    tie-break and invariant preservation for [mintBatch] and
    [transferBatch]. *)

From stdpp Require Import base decidable gmap sets list.
From Stdlib Require Import ZArith Lia.
From Stdlib Require String.
From S2P Require Import Prelude Registry Compliance Ledger.

Open Scope Z_scope.

Section Batch.
Context {R : Type} `{ClassRegistryLaws R}.

Local Abbreviation Ledger := (@Ledger.Ledger R).

(** One entry of a pending batch: [(account, classId, amountDelta)]. *)
Record Entry := mkEntry {
  e_account : Address;
  e_class : ClassId;
  e_delta : Z
}.

(** Phase 1: validate every entry on the scratch ledger, in input order,
    recording the decisions. *)
Fixpoint simulate (scratch : Ledger) (es : list Entry)
    : result (list (Entry * Decision)) :=
  match es with
  | [] => Ok []
  | e :: es' =>
      d ← decideDelta scratch (e_account e) (e_class e) (e_delta e) ;
      ds ← simulate (commit scratch (e_account e) (e_class e) d) es' ;
      Ok ((e, d) :: ds)
  end.

(** Phase 2: write the recorded decisions to the ledger. *)
Definition commitAll (st : Ledger) (ds : list (Entry * Decision)) : Ledger :=
  fold_left (fun st ed => commit st (e_account ed.1) (e_class ed.1) ed.2) ds st.

(** [applyBatch(entries)]: simulate, then commit all or nothing. *)
Definition applyBatch (st : Ledger) (es : list Entry) : result Ledger :=
  ds ← simulate st es ;
  Ok (commitAll st ds).

(** [mintBatch(accounts, classId, amounts, memo)]. *)
Definition mintBatch (st : Ledger) (accounts : list Address) (c : ClassId)
    (amounts : list N) (memo : String.string) : result Ledger :=
  fail_when (length accounts <> length amounts \/ accounts = []) with ArityMismatch ;;
  fail_when (0%N ∈ amounts) with InvalidParameters ;;
  applyBatch st (zip_with (fun a amt => mkEntry a c (Z.of_N amt)) accounts amounts).

(** [transferBatch(from, recipients, classId, amounts, memo)]: each pair
    becomes a debit of [from] followed by a credit of the recipient. *)
Definition transferBatch (st : Ledger) (from : Address) (tos : list Address)
    (c : ClassId) (amounts : list N) (memo : String.string) : result Ledger :=
  fail_when (length tos <> length amounts \/ tos = []) with ArityMismatch ;;
  fail_when (from ∈ tos) with SelfTransferNotAllowed ;;
  applyBatch st (concat (zip_with (fun to amt =>
    [mkEntry from c (- Z.of_N amt); mkEntry to c (Z.of_N amt)]) tos amounts)).

(** Reference semantics: sequential application with early exit. *)
Fixpoint applySeq (st : Ledger) (es : list Entry) : result Ledger :=
  match es with
  | [] => Ok st
  | e :: es' =>
      st1 ← applyDelta st (e_account e) (e_class e) (e_delta e) ;
      applySeq st1 es'
  end.

(** Net change a list of entries makes to one balance. *)
Definition netDelta (a : Address) (c : ClassId) (es : list Entry) : Z :=
  foldr (fun e acc =>
    (if decide (e_class e = c /\ e_account e = a) then e_delta e else 0) + acc) 0 es.

(** Net change a list of entries makes to a class's supply. *)
Definition classDelta (c : ClassId) (es : list Entry) : Z :=
  foldr (fun e acc => (if decide (e_class e = c) then e_delta e else 0) + acc) 0 es.

(** The amount a batch mints to one account (the sum over its entries). *)
Definition credited (a : Address) (accounts : list Address) (amounts : list N) : Z :=
  foldr (fun xa acc => (if decide (xa.1 = a) then Z.of_N xa.2 else 0) + acc) 0
        (zip accounts amounts).

(** ** Theorems *)

Lemma applySeq_app st pre post :
  applySeq st (pre ++ post) = (s ← applySeq st pre ; applySeq s post).
Proof.
  revert st. induction pre as [|e pre IH]; intros st; simpl; [reflexivity|].
  destruct (applyDelta st _ _ _); simpl; [apply IH|reflexivity].
Qed.

Lemma simulate_Ok st es ds :
  simulate st es = Ok ds -> applySeq st es = Ok (commitAll st ds).
Proof.
  revert st ds. induction es as [|e es IH]; intros st ds Hs; simpl in Hs.
  - injection Hs as <-. reflexivity.
  - inv_result. subst ds. simpl. unfold applyDelta. rewrite Hm. simpl.
    apply IH, Hm0.
Qed.

Lemma simulate_Err st es err :
  simulate st es = Err err -> applySeq st es = Err err.
Proof.
  revert st. induction es as [|e es IH]; intros st Hs; simpl in Hs; [discriminate|].
  simpl. unfold applyDelta.
  destruct (decideDelta st _ _ _) as [d|err']; simpl in *; [|congruence].
  destruct (simulate _ es) eqn:E; simpl in Hs; [discriminate|].
  injection Hs as <-. apply IH, E.
Qed.

Lemma applyBatch_Ok_seq st es st' :
  applyBatch st es = Ok st' -> applySeq st es = Ok st'.
Proof. unfold applyBatch. intros Hb. inv_result. subst st'. apply simulate_Ok, Hm. Qed.

Lemma applyBatch_Err_seq st es err :
  applyBatch st es = Err err <-> applySeq st es = Err err.
Proof.
  unfold applyBatch. destruct (simulate st es) as [ds|e] eqn:E; simpl.
  - rewrite (simulate_Ok _ _ _ E). split; discriminate.
  - rewrite (simulate_Err _ _ _ E). reflexivity.
Qed.

(** The two-phase batch algorithm (validate every entry on a scratch
    copy, then commit the recorded decisions) computes exactly the
    sequential application of the entries: same final ledger, same
    error. *)
Theorem applyBatch_applySeq st es : applyBatch st es = applySeq st es.
Proof.
  unfold applyBatch. destruct (simulate st es) as [ds|e] eqn:E; simpl.
  - rewrite (simulate_Ok _ _ _ E). reflexivity.
  - rewrite (simulate_Err _ _ _ E). reflexivity.
Qed.

Lemma applySeq_wf st es st' : wf st -> applySeq st es = Ok st' -> wf st'.
Proof.
  revert st. induction es as [|e es IH]; intros st Hwf Hs; simpl in Hs.
  - congruence.
  - inv_result. eapply IH; [eapply applyDelta_wf|]; eauto.
Qed.

(** a committed batch preserves the global invariant. *)
Theorem applyBatch_wf st es st' : wf st -> applyBatch st es = Ok st' -> wf st'.
Proof. intros Hwf Hb%applyBatch_Ok_seq. eapply applySeq_wf; eauto. Qed.

(** a rejected batch reports the error of the first entry that
    fails, in input order, on the state left by the entries before it. *)
Theorem applyBatch_Err st es err :
  applyBatch st es = Err err <->
  exists pre x post stp,
    es = pre ++ x :: post /\ applySeq st pre = Ok stp /\
    applyDelta stp (e_account x) (e_class x) (e_delta x) = Err err.
Proof.
  rewrite applyBatch_Err_seq. split.
  - revert st. induction es as [|e es IH]; intros st Hs; simpl in Hs; [discriminate|].
    destruct (applyDelta st _ _ _) as [st1|err'] eqn:E; simpl in Hs.
    + destruct (IH st1 Hs) as (pre & x & post & stp & -> & Hpre & Hx).
      exists (e :: pre), x, post, stp. simpl. rewrite E. auto.
    + injection Hs as <-. exists [], e, es, st. auto.
  - intros (pre & x & post & stp & -> & Hpre & Hx).
    rewrite applySeq_app, Hpre. simpl. rewrite Hx. reflexivity.
Qed.

Lemma applySeq_balance st es st' a c :
  applySeq st es = Ok st' -> balanceOf st' a c = balanceOf st a c + netDelta a c es.
Proof.
  revert st. induction es as [|e es IH]; intros st Hs; simpl in Hs.
  - injection Hs as <-. simpl. lia.
  - inv_result. rewrite (IH _ Hs), (applyDelta_balance _ _ _ _ _ _ _ Hm). simpl.
    repeat case_decide; destruct_and?; subst; try tauto; lia.
Qed.

(** Credits of at least the minimum to a class without the
    divisibility rule all go through, as long as the shareholder limit
    has room for one new holder per entry. *)
Lemma applySeq_credits_Ok st c p es :
  wf st -> policy_of (registry st) c = Ok p -> nonDivisible p = false ->
  Forall (fun e => e_class e = c /\ 0 < e_delta e /\ shareholdingMinimum p <= e_delta e) es ->
  shareholderLimit p <= 0 \/
    holder_count (registry st) c + Z.of_nat (length es) <= shareholderLimit p ->
  exists st', applySeq st es = Ok st'.
Proof.
  revert st. induction es as [|[a c' delta] es IH]; intros st Hwf Hp Hnd Hes Hlim; [eauto|].
  apply Forall_cons in Hes as [(Hc & Hpos & Hmin) Hes]. simpl in *. subst c'.
  pose proof (wf_balance_nonneg st a c Hwf) as Hnn.
  assert (Hv : validate p (balanceOf st a c) delta (holder_count (registry st) c) =
                 Ok (mkDecision (balanceOf st a c + delta) (entryDelta (balanceOf st a c) delta))).
  { apply validate_Ok_intro. repeat split; intros; try lia. congruence. }
  assert (H1 : applyDelta st a c delta =
                 Ok (commit st a c (mkDecision (balanceOf st a c + delta)
                                               (entryDelta (balanceOf st a c) delta)))).
  { apply applyDelta_Ok. eexists. split; [apply decideDelta_Ok; eauto|reflexivity]. }
  rewrite H1. simpl. apply IH; auto.
  - eapply applyDelta_wf; eauto.
  - rewrite (applyDelta_policy _ _ _ _ _ _ H1). exact Hp.
  - rewrite holder_count_commit, decide_True by reflexivity. simpl.
    pose proof (entryDelta_le (balanceOf st a c) delta). lia.
Qed.

(** Credits to distinct accounts that hold nothing of the class each
    add one holder. *)
Lemma applySeq_new_holders st es st' c :
  applySeq st es = Ok st' ->
  Forall (fun e => e_class e = c /\ 0 < e_delta e /\ balanceOf st (e_account e) c = 0) es ->
  NoDup (e_account <$> es) ->
  holder_count (registry st') c = holder_count (registry st) c + Z.of_nat (length es).
Proof.
  revert st. induction es as [|[a c' delta] es IH]; intros st Hs Hes Hnd; simpl in Hs.
  - injection Hs as <-. simpl. lia.
  - inv_result. apply applyDelta_Ok in Hm as (d & Hd & ->).
    apply decideDelta_Ok in Hd as (p & _ & (_ & ->)%validate_Ok_elim).
    apply Forall_cons in Hes as [(Hc & Hpos & Hz) Hes]. simpl in *. subst c'.
    apply NoDup_cons in Hnd as [Hnotin Hnd].
    rewrite (IH _ Hs); [|clear IH Hs|exact Hnd].
    + rewrite holder_count_commit, decide_True by reflexivity. simpl.
      unfold entryDelta. rewrite Hz, bool_decide_eq_true_2 by lia. lia.
    + apply Forall_forall. intros [a' c' delta'] Hin.
      pose proof (proj1 (Forall_forall _ _) Hes _ Hin) as (Hc' & Hp' & Hz'). simpl in *.
      split; [exact Hc'|]. split; [exact Hp'|].
      rewrite balanceOf_commit, decide_False; [exact Hz'|].
      intros [_ ->]. apply Hnotin. apply (list_elem_of_fmap_2 e_account _ _ Hin).
Qed.

Lemma applySeq_supply st es st' c :
  applySeq st es = Ok st' -> supply st' c = supply st c + classDelta c es.
Proof.
  revert st. induction es as [|e es IH]; intros st Hs; simpl in Hs.
  - injection Hs as <-. simpl. lia.
  - inv_result. rewrite (IH _ Hs), (applyDelta_supply _ _ _ _ _ _ Hm). simpl. lia.
Qed.

Lemma mintBatch_Ok st accounts c amounts memo st' :
  mintBatch st accounts c amounts memo = Ok st' ->
  length accounts = length amounts /\ accounts <> [] /\ (0%N ∉ amounts) /\
  applySeq st (zip_with (fun a amt => mkEntry a c (Z.of_N amt)) accounts amounts) = Ok st'.
Proof.
  unfold mintBatch. intros Hop. inv_result. apply applyBatch_Ok_seq in Hop.
  split; [destruct (decide (length accounts = length amounts)); tauto|].
  split; [tauto|]. auto.
Qed.

(** a committed [mintBatch] preserves the global invariant. *)
Theorem mintBatch_wf st accounts c amounts memo st' :
  wf st -> mintBatch st accounts c amounts memo = Ok st' -> wf st'.
Proof. intros Hwf (_ & _ & _ & Hs)%mintBatch_Ok. eapply applySeq_wf; eauto. Qed.

Lemma netDelta_mint a c' c accounts amounts :
  netDelta a c' (zip_with (fun a amt => mkEntry a c (Z.of_N amt)) accounts amounts) =
    if decide (c = c') then credited a accounts amounts else 0.
Proof.
  unfold credited. revert amounts.
  induction accounts as [|x accounts IH]; intros [|amt amounts]; simpl;
    try (case_decide; reflexivity).
  rewrite IH. repeat case_decide; destruct_and?; subst; try tauto; lia.
Qed.

(** a committed [mintBatch] credits every listed account with the
    sum of its amounts in the minted class, and changes nothing else. *)
Theorem mintBatch_balance st accounts c amounts memo st' a c' :
  mintBatch st accounts c amounts memo = Ok st' ->
  balanceOf st' a c' =
    balanceOf st a c' + (if decide (c = c') then credited a accounts amounts else 0).
Proof.
  intros (_ & _ & _ & Hs)%mintBatch_Ok.
  rewrite (applySeq_balance _ _ _ _ _ Hs), netDelta_mint. reflexivity.
Qed.

(** [mintBatch] rejects mismatched or empty argument arrays with
    [ArityMismatch], before anything else is checked. *)
Theorem mintBatch_arity st accounts c amounts memo :
  length accounts <> length amounts \/ accounts = [] ->
  mintBatch st accounts c amounts memo = Err ArityMismatch.
Proof.
  intros Har. unfold mintBatch.
  rewrite (bool_decide_eq_true_2 (_ \/ _)) by exact Har. reflexivity.
Qed.

Lemma classDelta_transfer from c c' tos amounts :
  classDelta c' (concat (zip_with (fun to amt =>
    [mkEntry from c (- Z.of_N amt); mkEntry to c (Z.of_N amt)]) tos amounts)) = 0.
Proof.
  unfold classDelta. revert amounts.
  induction tos as [|x tos IH]; intros [|amt amounts]; simpl; try reflexivity.
  rewrite IH. case_decide; lia.
Qed.

Lemma transferBatch_Ok st from tos c amounts memo st' :
  transferBatch st from tos c amounts memo = Ok st' ->
  applySeq st (concat (zip_with (fun to amt =>
    [mkEntry from c (- Z.of_N amt); mkEntry to c (Z.of_N amt)]) tos amounts)) = Ok st'.
Proof. unfold transferBatch. intros Hop. inv_result. apply applyBatch_Ok_seq, Hop. Qed.

(** a committed [transferBatch] preserves the global invariant. *)
Theorem transferBatch_wf st from tos c amounts memo st' :
  wf st -> transferBatch st from tos c amounts memo = Ok st' -> wf st'.
Proof. intros Hwf Hs%transferBatch_Ok. eapply applySeq_wf; eauto. Qed.

(** a committed [transferBatch] conserves the supply of every class. *)
Theorem transferBatch_supply st from tos c amounts memo st' c' :
  transferBatch st from tos c amounts memo = Ok st' -> supply st' c' = supply st c'.
Proof.
  intros Hs%transferBatch_Ok. rewrite (applySeq_supply _ _ _ _ Hs), classDelta_transfer. lia.
Qed.

End Batch.

#[export] Hint Resolve applySeq_wf applyBatch_wf : hs.
