(* ===== verification/BatchGrouped.v ===== *)
(** * BatchCoordinator, step by step: grouping by class

    The spec's [applyBatch] algorithm (section 4.4) first groups the
    entries by class, then for each class simulates that class's entries,
    in input order, on a scratch copy of the current ledger, and commits
    every decision only if all classes pass. [applyBatchGrouped] is that
    algorithm; [Batch.applyBatch] simulates all entries in input order on
    one scratch ledger. Classes do not interact (a commit on one class
    leaves every other class's balances, holder count and policy as they
    were), so the two agree: they accept the same batches, and the ledgers
    they commit are observationally equal ([ledger_equiv]: the same
    policies, holder counts and balances in every class). [ledger_equiv]
    is an equivalence and the ledger's queries and [commit] respect it,
    so results transfer by setoid rewriting. On a batch of one class
    the two are equal, errors included ([applyBatchGrouped_one_class]). *)

From stdpp Require Import base decidable gmap sets list.
From Stdlib Require Import ZArith Lia.
From S2P Require Import Prelude Registry Compliance Ledger Batch.

Open Scope Z_scope.

Section Grouped.
Context {R : Type} `{ClassRegistryLaws R}.

Local Abbreviation Ledger := (@Ledger.Ledger R).

(** Step 1: the entries of one class, in input order. *)
Definition classEntries (c : ClassId) (es : list Entry) : list Entry :=
  filter (fun e => e_class e = c) es.

(** The classes a batch touches, each once. *)
Definition batchClasses (es : list Entry) : list ClassId := remove_dups (e_class <$> es).

(** Step 2: each class's entries simulated on the current ledger; the
    decisions of all classes, class after class. *)
Fixpoint simulateClasses (st : Ledger) (cs : list ClassId) (es : list Entry)
    : result (list (Entry * Decision)) :=
  match cs with
  | [] => Ok []
  | c :: cs' =>
      ds ← simulate st (classEntries c es) ;
      ds' ← simulateClasses st cs' es ;
      Ok (ds ++ ds')
  end.

(** Steps 1 to 4: commit every decision only if every class passes. *)
Definition applyBatchGrouped (st : Ledger) (es : list Entry) : result Ledger :=
  ds ← simulateClasses st (batchClasses es) es ;
  Ok (commitAll st ds).

(** Two ledgers that look the same in one class. *)
Definition agreeOn (c : ClassId) (l1 l2 : Ledger) : Prop :=
  policy_of (registry l1) c = policy_of (registry l2) c /\
  holder_count (registry l1) c = holder_count (registry l2) c /\
  forall a, balanceOf l1 a c = balanceOf l2 a c.

(** Observational equality of ledgers: they agree in every class. *)
Definition ledger_equiv (l1 l2 : Ledger) : Prop := forall c, agreeOn c l1 l2.

(** The decisions of one class, in order. *)
Definition classDecisions (c : ClassId) (ds : list (Entry * Decision))
    : list (Entry * Decision) :=
  filter (fun ed => e_class ed.1 = c) ds.

(** ** Theorems *)

#[export] Instance agreeOn_equivalence c : Equivalence (agreeOn c).
Proof.
  split.
  - intros l. repeat split.
  - intros l1 l2 (Hp & Hh & Hb). repeat split; auto.
  - intros l1 l2 l3 (Hp & Hh & Hb) (Hp' & Hh' & Hb'). repeat split; congruence.
Qed.

#[export] Instance ledger_equiv_equivalence : Equivalence ledger_equiv.
Proof.
  split.
  - intros l c. reflexivity.
  - intros l1 l2 Hl c. symmetry. apply Hl.
  - intros l1 l2 l3 H12 H23 c. etransitivity; [apply H12|apply H23].
Qed.

#[export] Instance balanceOf_proper :
  Proper (ledger_equiv ==> eq ==> eq ==> eq) (@balanceOf R).
Proof. intros l1 l2 Hl a ? <- c ? <-. apply (Hl c). Qed.

#[export] Instance holder_count_proper :
  Proper (ledger_equiv ==> eq ==> eq) (fun l : Ledger => holder_count (registry l)).
Proof. intros l1 l2 Hl c ? <-. apply (Hl c). Qed.

Lemma decideDelta_agree c l1 l2 a delta :
  agreeOn c l1 l2 -> decideDelta l1 a c delta = decideDelta l2 a c delta.
Proof. intros (Hp & Hh & Hb). unfold decideDelta. rewrite Hp, Hh, Hb. reflexivity. Qed.

Lemma commit_agree_same c l1 l2 a d :
  agreeOn c l1 l2 -> agreeOn c (commit l1 a c d) (commit l2 a c d).
Proof.
  intros (Hp & Hh & Hb). split; [rewrite !policy_of_commit; exact Hp|]. split.
  - rewrite !holder_count_commit, Hh. reflexivity.
  - intros a'. rewrite !balanceOf_commit, Hb. reflexivity.
Qed.

Lemma commit_agree_other c c' l a d :
  c' <> c -> agreeOn c (commit l a c' d) l.
Proof.
  intros Hne. split; [apply policy_of_commit|]. split.
  - rewrite holder_count_commit, decide_False by exact Hne. lia.
  - intros a'. rewrite balanceOf_commit, decide_False by tauto. reflexivity.
Qed.

#[export] Instance commit_proper :
  Proper (ledger_equiv ==> eq ==> eq ==> eq ==> ledger_equiv) (@commit R _).
Proof.
  intros l1 l2 Hl a ? <- c ? <- d ? <- c'.
  destruct (decide (c = c')) as [<-|Hne].
  - apply commit_agree_same, Hl.
  - rewrite (commit_agree_other c' c l1 a d Hne), (Hl c').
    symmetry. apply commit_agree_other, Hne.
Qed.

(** A class's entries simulated on any ledger that agrees on that class
    make the decisions the whole batch made for them. *)
Lemma simulate_classEntries c es : forall st1 st2 ds,
  agreeOn c st1 st2 -> simulate st1 es = Ok ds ->
  simulate st2 (classEntries c es) = Ok (classDecisions c ds).
Proof.
  induction es as [|e es IH]; intros st1 st2 ds Hag Hs; simpl in Hs.
  - injection Hs as <-. reflexivity.
  - destruct (decideDelta st1 _ _ _) as [d|] eqn:Hd; simpl in Hs; [|discriminate].
    destruct (simulate (commit st1 _ _ d) es) as [ds'|] eqn:Hs'; simpl in Hs; [|discriminate].
    injection Hs as <-. unfold classEntries, classDecisions. rewrite !filter_cons. simpl.
    destruct (decide (e_class e = c)) as [Hc|Hc].
    + subst c. simpl. rewrite <- (decideDelta_agree _ _ _ _ _ Hag), Hd. simpl.
      erewrite IH; [reflexivity| |exact Hs']. apply commit_agree_same, Hag.
    + eapply IH; [|exact Hs']. rewrite (commit_agree_other c (e_class e) st1 _ d Hc). exact Hag.
Qed.

(** A failing batch has a class whose entries fail with the same error
    on every ledger that agrees with it on that class. *)
Lemma simulate_Err_class es : forall st1 err,
  simulate st1 es = Err err ->
  exists c, c ∈ e_class <$> es /\
    forall st2, agreeOn c st1 st2 -> simulate st2 (classEntries c es) = Err err.
Proof.
  induction es as [|e es IH]; intros st1 err Hs; simpl in Hs; [discriminate|].
  destruct (decideDelta st1 _ _ _) as [d|err'] eqn:Hd; simpl in Hs.
  - destruct (simulate (commit st1 _ _ d) es) as [ds'|err'] eqn:Hs'; simpl in Hs; [discriminate|].
    injection Hs as ->. destruct (IH _ _ Hs') as (c & Hin & Hc).
    exists c. split; [right; exact Hin|]. intros st2 Hag.
    unfold classEntries. rewrite filter_cons. destruct (decide (e_class e = c)) as [He|He].
    + subst c. simpl. rewrite <- (decideDelta_agree _ _ _ _ _ Hag), Hd. simpl.
      rewrite Hc; [reflexivity|]. apply commit_agree_same, Hag.
    + apply Hc. rewrite (commit_agree_other c (e_class e) st1 _ d He). exact Hag.
  - injection Hs as ->. exists (e_class e). split; [left|].
    intros st2 Hag. unfold classEntries. rewrite filter_cons, decide_True by reflexivity. simpl.
    rewrite <- (decideDelta_agree _ _ _ _ _ Hag), Hd. reflexivity.
Qed.

Lemma simulate_fst st es ds : simulate st es = Ok ds -> fst <$> ds = es.
Proof.
  revert st ds. induction es as [|e es IH]; intros st ds Hs; simpl in Hs.
  - injection Hs as <-. reflexivity.
  - inv_result. subst. simpl. f_equal. eapply IH; eauto.
Qed.

(** Committing decisions, seen in one class, only depends on that class's
    decisions. *)
Lemma commitAll_agree c ds : forall st1 st2,
  agreeOn c st1 st2 -> agreeOn c (commitAll st1 ds) (commitAll st2 (classDecisions c ds)).
Proof.
  induction ds as [|[e d] ds IH]; intros st1 st2 Hag; [exact Hag|].
  unfold classDecisions. rewrite filter_cons. simpl. destruct (decide (e_class e = c)) as [Hc|Hc].
  - subst c. simpl. apply IH. apply commit_agree_same, Hag.
  - apply IH. rewrite (commit_agree_other c (e_class e) st1 _ d Hc). exact Hag.
Qed.

Lemma simulateClasses_Ok st cs es ds :
  simulate st es = Ok ds ->
  simulateClasses st cs es = Ok (concat ((fun c => classDecisions c ds) <$> cs)).
Proof.
  intros Hs. induction cs as [|c cs IH]; [reflexivity|]. simpl.
  rewrite (simulate_classEntries c es st st ds) by (reflexivity || exact Hs). simpl.
  rewrite IH. reflexivity.
Qed.

Lemma simulateClasses_Err st cs es c err :
  c ∈ cs -> simulate st (classEntries c es) = Err err ->
  exists err', simulateClasses st cs es = Err err'.
Proof.
  induction cs as [|c' cs IH]; intros Hin Hc; [inversion Hin|]. simpl.
  destruct (simulate st (classEntries c' es)) as [ds|err'] eqn:Hc'; simpl; [|eauto].
  apply elem_of_cons in Hin as [->|Hin]; [congruence|].
  destruct (IH Hin Hc) as [err' ->]. simpl. eauto.
Qed.

Lemma classDecisions_classDecisions c c' ds :
  classDecisions c (classDecisions c' ds) =
    if decide (c' = c) then classDecisions c ds else [].
Proof.
  unfold classDecisions. case_decide as Hc.
  - subst c'. apply list_filter_filter_l. auto.
  - rewrite list_filter_filter. induction ds as [|x ds IH]; [reflexivity|].
    rewrite filter_cons, decide_False by (intros [H1 H2]; congruence). exact IH.
Qed.

Lemma classDecisions_concat c cs ds :
  NoDup cs ->
  classDecisions c (concat ((fun c' => classDecisions c' ds) <$> cs)) =
    if decide (c ∈ cs) then classDecisions c ds else [].
Proof.
  induction cs as [|c' cs IH]; intros Hnd.
  - simpl. try (case_decide as Hin; [inversion Hin|]). reflexivity.
  - apply NoDup_cons in Hnd as [Hnotin Hnd].
    rewrite fmap_cons. cbn [concat]. unfold classDecisions at 1. rewrite filter_app.
    change (filter (fun ed => e_class ed.1 = c) ?l) with (classDecisions c l).
    rewrite classDecisions_classDecisions, IH by exact Hnd.
    destruct (decide (c ∈ c' :: cs)), (decide (c' = c)), (decide (c ∈ cs)); subst;
      simpl; rewrite ?app_nil_r; try reflexivity; set_solver.
Qed.

Lemma classDecisions_nil c ds :
  c ∉ e_class <$> (fst <$> ds) -> classDecisions c ds = [].
Proof.
  induction ds as [|[e d] ds IH]; intros Hc; [reflexivity|].
  simpl in Hc. apply not_elem_of_cons in Hc as [Hne Hc].
  unfold classDecisions. rewrite filter_cons, decide_False by (simpl; congruence).
  apply IH, Hc.
Qed.

(** When the input-order simulation accepts a batch, the grouped one
    accepts it too and commits an observationally equal ledger. *)
Lemma applyBatchGrouped_of_simulate st es ds :
  simulate st es = Ok ds ->
  exists st2, applyBatchGrouped st es = Ok st2 /\ ledger_equiv (commitAll st ds) st2.
Proof.
  intros Hs. unfold applyBatchGrouped. rewrite (simulateClasses_Ok _ _ _ _ Hs). simpl.
  eexists. split; [reflexivity|]. intros c.
  rewrite (commitAll_agree c ds st st) by reflexivity.
  symmetry. rewrite (commitAll_agree c _ st st) by reflexivity.
  rewrite classDecisions_concat by apply NoDup_remove_dups.
  case_decide as Hin; [reflexivity|].
  rewrite classDecisions_nil; [reflexivity|].
  rewrite (simulate_fst _ _ _ Hs). intros Hin'. apply Hin, elem_of_remove_dups, Hin'.
Qed.

(** A batch the grouped algorithm accepts is accepted by the input-order
    one. *)
Lemma applyBatchGrouped_Ok_simulate st es st2 :
  applyBatchGrouped st es = Ok st2 -> exists ds, simulate st es = Ok ds.
Proof.
  intros Hg. destruct (simulate st es) as [ds|err] eqn:Hs; [eauto|exfalso].
  destruct (simulate_Err_class _ _ _ Hs) as (c & Hin & Hc).
  destruct (simulateClasses_Err st (batchClasses es) es c err) as [err' Herr].
  - apply elem_of_remove_dups, Hin.
  - apply Hc. reflexivity.
  - unfold applyBatchGrouped in Hg. rewrite Herr in Hg. discriminate.
Qed.

(** The spec's grouped algorithm and the input-order batch accept the
    same batches and commit observationally equal ledgers: the same
    policies, holder counts and balances in every class. *)
Theorem applyBatchGrouped_equiv st es :
  (forall st1, applyBatch st es = Ok st1 ->
     exists st2, applyBatchGrouped st es = Ok st2 /\ ledger_equiv st1 st2) /\
  (forall st2, applyBatchGrouped st es = Ok st2 ->
     exists st1, applyBatch st es = Ok st1 /\ ledger_equiv st1 st2).
Proof.
  split.
  - intros st1 H1. unfold applyBatch in H1. inv_result. subst st1.
    apply applyBatchGrouped_of_simulate. exact Hm.
  - intros st2 H2. destruct (applyBatchGrouped_Ok_simulate _ _ _ H2) as [ds Hs].
    destruct (applyBatchGrouped_of_simulate _ _ _ Hs) as (st2' & Hg & Heq).
    rewrite Hg in H2. injection H2 as <-. exists (commitAll st ds).
    split; [unfold applyBatch; rewrite Hs; reflexivity|exact Heq].
Qed.

(** So a grouped batch moves every balance by the entries' net change,
    like the sequential application. *)
Lemma applyBatchGrouped_balance st es st2 a c :
  applyBatchGrouped st es = Ok st2 -> balanceOf st2 a c = balanceOf st a c + netDelta a c es.
Proof.
  intros Hg. destruct (applyBatchGrouped_Ok_simulate _ _ _ Hg) as [ds Hs].
  destruct (applyBatchGrouped_of_simulate _ _ _ Hs) as (st2' & Hg' & Heq).
  rewrite Hg' in Hg. injection Hg as <-. rewrite <- Heq.
  apply applySeq_balance. rewrite <- applyBatch_applySeq. unfold applyBatch. rewrite Hs.
  reflexivity.
Qed.

Lemma classEntries_all c es : Forall (fun e => e_class e = c) es -> classEntries c es = es.
Proof.
  induction 1 as [|e es He _ IH]; [reflexivity|].
  unfold classEntries. rewrite filter_cons, decide_True by exact He. f_equal. exact IH.
Qed.

Lemma batchClasses_one_class c es :
  es <> [] -> Forall (fun e => e_class e = c) es -> batchClasses es = [c].
Proof.
  unfold batchClasses. induction es as [|e es IH]; intros Hne Hall; [congruence|].
  apply Forall_cons in Hall as [He Hall]. rewrite fmap_cons. simpl. rewrite He.
  destruct es as [|e' es]; [reflexivity|].
  rewrite IH in * by (discriminate || exact Hall).
  apply Forall_cons in Hall as [He' _].
  case_decide as Hin; [reflexivity|]. exfalso. apply Hin. rewrite fmap_cons, He'. left.
Qed.

(** On a batch of one class, grouping changes nothing: the grouped
    algorithm is the input-order one, errors included. *)
Theorem applyBatchGrouped_one_class st c es :
  Forall (fun e => e_class e = c) es -> applyBatchGrouped st es = applyBatch st es.
Proof.
  intros Hall. destruct es as [|e es]; [reflexivity|].
  unfold applyBatchGrouped, applyBatch. rewrite (batchClasses_one_class c) by (discriminate || exact Hall).
  cbn [simulateClasses]. rewrite classEntries_all by exact Hall.
  destruct (simulate st (e :: es)); cbn; rewrite ?app_nil_r; reflexivity.
Qed.

End Grouped.
