(* ===== verification/Hypershare.v ===== *)
(** * Hypershare: the contract's entry points and its reachable states

    The contract keeps a token URI, the address of its registry contract
    (set by [setRegistry]) and a ledger whose registry is the concrete
    [TokenRegistry.Registry]. [receive] dispatches one call; [step] is the
    transition relation of serialized calls, and [reachable] the states
    reached from a freshly deployed contract. The spec's global invariant
    holds in every reachable state (rule induction over [rtc step]). *)

From Stdlib Require Import String.
From stdpp Require Import base decidable gmap sets list relations.
From Stdlib Require Import ZArith Lia.
From S2P Require Import Prelude Registry Compliance Ledger Batch.

Open Scope Z_scope.

Module Hypershare.
Import TokenRegistry.

(** The contract's storage. [auxAddr] is the constructor's second
    address argument, stored but not used by the modelled operations. *)
Record State := mkState {
  uri : String.string;
  registryAddr : Address;
  auxAddr : Address;
  ledger : Ledger Registry
}.

(** The calls the contract accepts. *)
Inductive Msg :=
  | NewToken (limit minimum : Z) (nonDiv : bool)
  | Mint (a : Address) (c : ClassId) (amount : N)
  | MintBatch (accounts : list Address) (c : ClassId) (amounts : list N)
      (memo : String.string)
  | Transfer (from to : Address) (c : ClassId) (amount : N)
  | TransferBatch (from : Address) (tos : list Address) (c : ClassId)
      (amounts : list N) (memo : String.string)
  | SetRegistry (r : Address).

(** [Hypershare.deploy(uri, registry, aux)]: an empty ledger. *)
Definition deploy (u : String.string) (reg aux : Address) : State :=
  mkState u reg aux (mkLedger TokenRegistry.empty ∅).

Definition withLedger (st : State) (l : Ledger Registry) : State :=
  mkState (uri st) (registryAddr st) (auxAddr st) l.

(** [newToken(shareholderLimit, shareholdingMinimum, nonDivisible)]. *)
Definition newToken (st : State) (limit minimum : Z) (nonDiv : bool)
    : result (ClassId * State) :=
  '(id, reg') ← createClass limit minimum nonDiv (registry (ledger st)) ;
  Ok (id, withLedger st (mkLedger reg' (balances (ledger st)))).

(** [setRegistry(address)]. *)
Definition setRegistry (st : State) (r : Address) : State :=
  mkState (uri st) r (auxAddr st) (ledger st).

Definition receive (st : State) (m : Msg) : result State :=
  match m with
  | NewToken limit minimum nonDiv => r ← newToken st limit minimum nonDiv ; Ok r.2
  | Mint a c amount => withLedger st <$> mint (ledger st) a c amount
  | MintBatch accounts c amounts memo =>
      withLedger st <$> mintBatch (ledger st) accounts c amounts memo
  | Transfer from to c amount => withLedger st <$> transfer (ledger st) from to c amount
  | TransferBatch from tos c amounts memo =>
      withLedger st <$> transferBatch (ledger st) from tos c amounts memo
  | SetRegistry r => Ok (setRegistry st r)
  end.

(** Serialized execution: one committed call at a time. *)
Inductive step : State -> State -> Prop :=
  | step_call st m st' : receive st m = Ok st' -> step st st'.

Definition reachable (s : State) : Prop :=
  exists u reg aux, rtc step (deploy u reg aux) s.

(** A sequence of calls applied one after the other, stopping at the
    first one that reverts. *)
Fixpoint run (s : State) (ms : list Msg) : result State :=
  match ms with
  | [] => Ok s
  | m :: ms' => s' ← receive s m ; run s' ms'
  end.

(** The holder count of a class, read through the contract. *)
Definition holderCountOf (s : State) (c : ClassId) : Z :=
  holderCount (registry (ledger s)) c.

(** ** Theorems *)

(** A class without a policy has no holders. *)
Lemma holders_unknown (l : Ledger Registry) c e :
  wf l -> getPolicy (registry l) c = Err e -> holdersOf l c = ∅.
Proof.
  intros Hwf Hc. apply set_eq. intros x. unfold holdersOf. rewrite elem_of_holders.
  split; [|set_solver].
  intros (b & Hb & Hpos). destruct (wf_admissible _ Hwf c x b Hb Hpos) as (p & Hp & _).
  simpl in Hp. congruence.
Qed.

(** Creating a class preserves the invariant: the new class has no
    holders yet, and the existing ones keep their policies. *)
Lemma createClass_wf (l : Ledger Registry) limit minimum nonDiv id reg' :
  wf l -> createClass limit minimum nonDiv (registry l) = Ok (id, reg') ->
  wf (mkLedger reg' (balances l)).
Proof.
  intros Hwf Hc.
  destruct (createClass_lookup _ _ _ _ _ _ Hc) as (Hold & Hnew & Hother & Hcount).
  split; simpl.
  - intros c. rewrite Hcount. apply (wf_count _ Hwf).
  - apply (wf_nonneg _ Hwf).
  - intros c a b Hb Hpos. destruct (wf_admissible _ Hwf c a b Hb Hpos) as (p & Hp & Ha).
    exists p. split; [|exact Ha]. rewrite Hother; [exact Hp|]. simpl in Hp. congruence.
  - intros c p Hp Hl. rewrite Hcount.
    destruct (decide (c = id)) as [->|Hne].
    + rewrite (wf_count _ Hwf), (holders_unknown _ _ _ Hwf Hold), size_empty.
      simpl. lia.
    + rewrite Hother in Hp by exact Hne. apply (wf_limit _ Hwf c p Hp Hl).
Qed.

#[export] Hint Resolve createClass_wf : hs.

Lemma receive_wf st m st' : wf (ledger st) -> receive st m = Ok st' -> wf (ledger st').
Proof.
  intros Hwf Hr. destruct m; simpl in Hr; inv_result; subst; simpl.
  - unfold newToken in Hm. destruct (createClass _ _ _ _) as [[id reg']|] eqn:Hc;
      simpl in Hm; inv_result; subst; simpl. eapply createClass_wf; eauto.
  - unfold mint in Hm. inv_result. wf_auto.
  - apply mintBatch_Ok in Hm as (_ & _ & _ & Hs). wf_auto.
  - apply transfer_Ok in Hm as (_ & _ & st1 & H1 & H2). wf_auto.
  - apply transferBatch_Ok in Hm. wf_auto.
  - exact Hwf.
Qed.

(** A ledger with classes and no balances yet is well formed. *)
Lemma wf_no_balances ps : wf (mkLedger (mkRegistry ps ∅) ∅).
Proof.
  split; simpl.
  - intros c. reflexivity.
  - intros c a b. unfold classBalances. simpl. rewrite lookup_empty. discriminate.
  - intros c a b. unfold classBalances. simpl. rewrite lookup_empty. discriminate.
  - intros c p _ Hl. unfold holderCount. simpl. rewrite lookup_empty. simpl. lia.
Qed.

(** in every state reachable from deployment by committed calls,
    the global invariant holds: the stored holder count of each class
    is the number of accounts with a positive balance, balances are
    non-negative, positive balances are admissible under the class
    policy, and a non-zero shareholder limit bounds the holder count. *)
Theorem reachable_wf s : reachable s -> wf (ledger s).
Proof.
  intros (u & reg & aux & Hs). remember (deploy u reg aux) as s0 eqn:E.
  assert (Hwf0 : wf (ledger s0)) by (subst; apply wf_no_balances). clear E.
  induction Hs as [s0|s0 s1 s2 [s0' m s1' Hr] _ IH]; [exact Hwf0|].
  apply IH. eapply receive_wf; eauto.
Qed.

Lemma run_reachable s ms s' : run s ms = Ok s' -> rtc step s s'.
Proof.
  revert s. induction ms as [|m ms IH]; intros s Hr; simpl in Hr.
  - injection Hr as <-. reflexivity.
  - inv_result. eapply rtc_l; [econstructor; eauto|]. apply IH; exact Hr.
Qed.

Lemma run_Err s ms e :
  run s ms = Err e <->
  exists pre m post sp, ms = pre ++ m :: post /\ run s pre = Ok sp /\ receive sp m = Err e.
Proof.
  split.
  - revert s. induction ms as [|m ms IH]; intros s Hr; simpl in Hr; [discriminate|].
    destruct (receive s m) as [s1|e'] eqn:E; simpl in Hr.
    + destruct (IH s1 Hr) as (pre & x & post & sp & -> & Hpre & Hx).
      exists (m :: pre), x, post, sp. simpl. rewrite E. auto.
    + injection Hr as <-. exists [], m, ms, s. auto.
  - intros (pre & m & post & sp & -> & Hpre & Hm).
    revert s Hpre. induction pre as [|m' pre IH]; intros s Hpre; simpl in *.
    + injection Hpre as <-. rewrite Hm. reflexivity.
    + destruct (receive s m'); simpl in *; [apply IH, Hpre|discriminate].
Qed.

Definition mintEntries (accounts : list Address) (c : ClassId) (amounts : list N)
    : list Entry :=
  zip_with (fun a amt => mkEntry a c (Z.of_N amt)) accounts amounts.

Definition mintCalls (accounts : list Address) (c : ClassId) (amounts : list N)
    : list Msg :=
  zip_with (fun a amt => Mint a c amt) accounts amounts.

Lemma run_mintCalls s accounts c amounts :
  0%N ∉ amounts ->
  run s (mintCalls accounts c amounts) =
    withLedger s <$> applySeq (ledger s) (mintEntries accounts c amounts).
Proof.
  unfold mintCalls, mintEntries. revert s amounts.
  induction accounts as [|a accounts IH]; intros s [|amt amounts] Hz; simpl;
    try (destruct s; reflexivity).
  unfold mint. rewrite bool_decide_eq_false_2 by (intros ->; apply Hz; left). simpl.
  destruct (applyDelta (ledger s) a c (Z.of_N amt)) as [l1|e]; simpl; [|reflexivity].
  rewrite IH by (intros Hin; apply Hz; right; exact Hin).
  change (ledger (withLedger s l1)) with l1.
  destruct (applySeq l1 _); reflexivity.
Qed.

Lemma receive_MintBatch s accounts c amounts memo :
  length accounts = length amounts -> accounts <> [] -> 0%N ∉ amounts ->
  receive s (MintBatch accounts c amounts memo) =
    withLedger s <$> applySeq (ledger s) (mintEntries accounts c amounts).
Proof.
  intros Hl Hne Hz. simpl. unfold mintBatch.
  rewrite (bool_decide_eq_false_2 (_ \/ _)) by (intros [?|?]; contradiction).
  rewrite (bool_decide_eq_false_2 (0%N ∈ _)) by exact Hz. simpl.
  rewrite applyBatch_applySeq. reflexivity.
Qed.

(** A balance change on the token's ledger fails only on an unknown
    class or a compliance rule. *)
Lemma applyDelta_Err_kind (l : Ledger Registry) a c delta e :
  applyDelta l a c delta = Err e -> e = UnknownClass \/ complianceError e = true.
Proof.
  unfold applyDelta, decideDelta. simpl. unfold getPolicy.
  destruct (classes (registry l) !! c); simpl; intros He; [|injection He as <-; auto].
  destruct (validate _ _ _ _) eqn:E; simpl in He; [discriminate|].
  injection He as <-. right. eapply validate_Err_kind; eauto.
Qed.

Lemma applySeq_Err_kind (l : Ledger Registry) es e :
  applySeq l es = Err e -> e = UnknownClass \/ complianceError e = true.
Proof.
  revert l. induction es as [|x es IH]; intros l He; simpl in He; [discriminate|].
  destruct (applyDelta l _ _ _) eqn:E; simpl in He; [eauto|].
  injection He as <-. eapply applyDelta_Err_kind; eauto.
Qed.

(** A [mintBatch] call whose arrays are well formed is the sequence of
    single [mint] calls, one per entry in input order: the same final
    storage when all succeed, the same error otherwise. *)
Theorem mintBatch_as_mints s accounts c amounts memo :
  length accounts = length amounts -> accounts <> [] -> 0%N ∉ amounts ->
  receive s (MintBatch accounts c amounts memo) = run s (mintCalls accounts c amounts).
Proof.
  intros Hl Hne Hz. rewrite receive_MintBatch, run_mintCalls by assumption. reflexivity.
Qed.

(** A well-formed [mintBatch] call is refused with error [e] exactly
    when some entry's mint fails with [e] after all the entries before
    it succeeded: the error is the first failing entry's, in input order. *)
Theorem mintBatch_first_error s accounts c amounts memo e :
  length accounts = length amounts -> accounts <> [] -> 0%N ∉ amounts ->
  receive s (MintBatch accounts c amounts memo) = Err e <->
  exists pre m post sp, mintCalls accounts c amounts = pre ++ m :: post /\
    run s pre = Ok sp /\ receive sp m = Err e.
Proof.
  intros Hl Hne Hz. rewrite receive_MintBatch, <- run_mintCalls by assumption.
  apply run_Err.
Qed.

Lemma receive_Mint s a c amount s' :
  receive s (Mint a c amount) = Ok s' ->
  exists l', mint (ledger s) a c amount = Ok l' /\ s' = withLedger s l'.
Proof. simpl. intros Hr. inv_result. eauto. Qed.

Lemma receive_Transfer s from to c amount s' :
  receive s (Transfer from to c amount) = Ok s' ->
  exists l', transfer (ledger s) from to c amount = Ok l' /\ s' = withLedger s l'.
Proof. simpl. intros Hr. inv_result. eauto. Qed.

(** A committed [mint] call credits the minted amount to exactly the
    minted (account, class) balance of the contract and leaves every
    other balance unchanged. *)
Theorem mint_call_balance s a c amount s' a' c' :
  receive s (Mint a c amount) = Ok s' ->
  balanceOf (ledger s') a' c' =
    if decide (c = c' /\ a = a') then balanceOf (ledger s) a c + Z.of_N amount
    else balanceOf (ledger s) a' c'.
Proof. intros (l' & Hm & ->)%receive_Mint. apply (mint_balance _ _ _ _ _ _ _ Hm). Qed.

(** On a contract satisfying the invariant, a committed [mint] call adds
    one holder to the class exactly when the recipient held none of it
    before. *)
Theorem mint_call_holder_count s a c amount s' :
  wf (ledger s) -> receive s (Mint a c amount) = Ok s' ->
  holderCountOf s' c =
    holderCountOf s c + (if decide (balanceOf (ledger s) a c = 0) then 1 else 0).
Proof.
  intros Hs (l' & Hm & ->)%receive_Mint. unfold holderCountOf.
  apply (mint_holder_count _ _ _ _ _ Hs Hm).
Qed.

(** A committed [transfer] call moves the amount from sender to
    recipient in the class and changes no other balance. *)
Theorem transfer_call_balance s from to c amount s' a' c' :
  receive s (Transfer from to c amount) = Ok s' ->
  balanceOf (ledger s') a' c' =
    if decide (c = c' /\ a' = from) then balanceOf (ledger s) from c - Z.of_N amount
    else if decide (c = c' /\ a' = to) then balanceOf (ledger s) to c + Z.of_N amount
    else balanceOf (ledger s) a' c'.
Proof. intros (l' & Hm & ->)%receive_Transfer. apply (transfer_balance _ _ _ _ _ _ _ _ Hm). Qed.

(** Committed [transfer] and [transferBatch] calls conserve the supply of
    every class. *)
Theorem transfer_calls_supply s m s' c' :
  (exists from to c amount, m = Transfer from to c amount) \/
  (exists from tos c amounts memo, m = TransferBatch from tos c amounts memo) ->
  receive s m = Ok s' -> supply (ledger s') c' = supply (ledger s) c'.
Proof.
  intros [(from & to & c & amount & ->)|(from & tos & c & amounts & memo & ->)] Hr;
    simpl in Hr; inv_result; subst; simpl.
  - apply (transfer_supply _ _ _ _ _ _ _ Hm).
  - apply (transferBatch_supply _ _ _ _ _ _ _ _ Hm).
Qed.

(** A [newToken] call fails, with [InvalidParameters], exactly when the
    shareholder limit or the minimum holding is negative. *)
Theorem newToken_Err s limit minimum nonDiv e :
  receive s (NewToken limit minimum nonDiv) = Err e <->
  (limit < 0 \/ minimum < 0) /\ e = InvalidParameters.
Proof.
  simpl. unfold newToken. rewrite <- (createClass_Err limit minimum nonDiv (registry (ledger s))).
  destruct (createClass _ _ _ _) as [[id reg']|e']; simpl; split; intros H;
    try discriminate; injection H as ->; reflexivity.
Qed.

(** ** The spec's scenarios, run on the model *)

(** Scenario A: with a shareholder limit of 2, two mints to new holders
    succeed and a third new holder is refused. *)
Example scenario_A :
  exists sA, run (deploy "" 0 0) [NewToken 2 0 false; Mint 1 0 10; Mint 2 0 10] = Ok sA /\
    holderCountOf sA 0 = 2 /\
    receive sA (Mint 3 0 10) = Err ShareholderLimitExceeded.
Proof. eexists. split; [vm_compute; reflexivity|]. split; vm_compute; reflexivity. Qed.

(** Scenario C: a batch mint to four new holders commits at once and
    raises the holder count by four. *)
Example scenario_C :
  exists sC, run (deploy "" 0 0) [NewToken 10 0 false;
                     MintBatch [1; 2; 3; 4]%N 0 [100; 200; 300; 400]%N ""] = Ok sC /\
    holderCountOf sC 0 = 4.
Proof. eexists. split; [vm_compute; reflexivity|]. vm_compute; reflexivity. Qed.

(** Scenario D: a transfer that would leave the sender between 0 and the
    minimum holding is refused with [BelowMinimumHolding]. *)
Example scenario_D :
  exists sD, run (deploy "" 0 0) [NewToken 0 5 false; Mint 1 0 10] = Ok sD /\
    receive sD (Transfer 1 2 0 7) = Err BelowMinimumHolding.
Proof. eexists. split; [vm_compute; reflexivity|]. vm_compute; reflexivity. Qed.

(** Scenario B as the model runs it: with [nonDivisible] set, a mint of
    3 (not a whole unit of [10^18]) is refused by the divisibility rule,
    which [validate] checks before the minimum-holding rule; the spec
    expects [BelowMinimumHolding] here. *)
Example scenario_B :
  exists sB, run (deploy "" 0 0) [NewToken 0 5 true; Mint 1 0 5000000000000000000] = Ok sB /\
    receive sB (Mint 2 0 3) = Err DivisibilityViolation.
Proof. eexists. split; [vm_compute; reflexivity|]. vm_compute; reflexivity. Qed.

(** The input-order tie-break: with a limit of 1, a batch minting to two
    new holders fails, and the failure is the second entry's. *)
Example batch_tie_break :
  exists s1, run (deploy "" 0 0) [NewToken 1 0 false] = Ok s1 /\
    receive s1 (MintBatch [1; 2]%N 0 [5; 5]%N "") = Err ShareholderLimitExceeded /\
    is_ok (applySeq (ledger s1) [mkEntry 1 0 5]) = true /\
    (s2 ← applySeq (ledger s1) [mkEntry 1 0 5] ; applyDelta s2 2 0 5)
      = Err ShareholderLimitExceeded.
Proof.
  eexists. split; [vm_compute; reflexivity|].
  split; [|split]; vm_compute; reflexivity.
Qed.

End Hypershare.
