(* ===== verification/Deploy.v ===== *)
(** * The deploy script run against the contract model

    [Script.v] writes [main] for any implementation of the interface
    [HypershareApi]; this file plugs in the contract model of
    [Hypershare.v] ([Hypershare_api]: each method is [receive] on the
    corresponding message, its [result] read as brownie's [Receipt]) and
    proves what the script's calls do to that contract on every state it
    could meet: [newTokenTx_Ok] and [newTokenTx_fresh_id] for [newToken];
    for [mintBatch], [mintBatchTx_as_mints] (the batch is its four mints
    in order), [mintBatchTx_guards_pass], [mintBatchTx_unknown_class],
    [mintBatchTx_reverts] (on every well-formed contract whose class 0 is
    non-divisible, which is what the script's own [newToken] creates),
    [mintBatchTx_divisible_Ok] and [mintBatchTx_new_holders] (what it
    does under a policy it fits). [deployed_reachable_wf] is the
    invariant for the contract the script deploys. Which error the
    script's batch meets depends on [UNIT] (10^18, inferred from the
    script's minimum; see [Compliance.v]). *)

From Stdlib Require Import String.
From stdpp Require Import base decidable gmap list relations.
From Stdlib Require Import ZArith Lia.
From S2P Require Import Prelude Script Registry Compliance Ledger Batch Hypershare.

Open Scope Z_scope.

Module Deploy.
Import TokenRegistry Hypershare Script.

(** A contract call's outcome as brownie reports it. *)
Definition receipt (r : result State) : Receipt State Error :=
  match r with
  | Ok s => Confirmed s
  | Err e => Reverted e
  end.

(** The contract model behind the script's interface. *)
Definition Hypershare_api : HypershareApi State Error := {|
  hs_deploy := Hypershare.deploy;
  hs_setRegistry s r := receipt (receive s (SetRegistry r));
  hs_newToken s limit minimum nonDiv := receipt (receive s (NewToken limit minimum nonDiv));
  hs_mintBatch s accounts id amounts data :=
    receipt (receive s (MintBatch accounts id amounts data))
|}.
#[export] Existing Instance Hypershare_api.

(** The message of the contract model a script call is. *)
Definition callMsg (c : Call) : Msg :=
  match c with
  | TxSetRegistry r => SetRegistry r
  | TxNewToken limit minimum nonDiv => NewToken limit minimum nonDiv
  | TxMintBatch accounts id amounts data => MintBatch accounts id amounts data
  end.

(** The policy the script's [newToken] call asks for. *)
Definition scriptPolicy : Policy :=
  mkPolicy shareholderLimit_arg shareholdingMinimum_arg shareholdingNonDivisible_arg.

(** The storage the script leaves: registry linked, class 0 created with
    the script's policy, no balances. *)
Definition classCreated (reg_addr : Address) : State :=
  mkState TOKEN_URI reg_addr ZERO_ADDR
    (mkLedger (TokenRegistry.mkRegistry [scriptPolicy] ∅) ∅).

(** ** What the script does to the contract *)

Lemma send_receive s c : send s c = receipt (receive s (callMsg c)).
Proof. destruct c; reflexivity. Qed.

Lemma receipt_Confirmed r s : receipt r = Confirmed s <-> r = Ok s.
Proof. destruct r; simpl; split; congruence. Qed.

Lemma receipt_Reverted r e : receipt r = Reverted e <-> r = Err e.
Proof. destruct r; simpl; split; congruence. Qed.

Lemma mint_amounts_nonzero : 0%N ∉ mint_amounts.
Proof. apply (bool_decide_unpack _). vm_compute. exact I. Qed.

(** The script's [mintBatch] passes the arity and amount guards: it is
    its four mints in order. *)
Lemma receive_mintBatchTx accounts s :
  receive s (callMsg (mintBatchTx accounts)) =
    withLedger s <$> applySeq (ledger s) (mintEntries (mint_accounts accounts) mint_id mint_amounts).
Proof. apply receive_MintBatch; [reflexivity|discriminate|apply mint_amounts_nonzero]. Qed.

(** The script's first mint: 100 base units to [PAYEE1] in class 0. *)
Lemma receive_mintBatchTx_first accounts s :
  receive s (callMsg (mintBatchTx accounts)) =
    withLedger s <$> (l1 ← applyDelta (ledger s) (PAYEE1 accounts) mint_id 100 ;
                      applySeq l1 (mintEntries (tail (mint_accounts accounts)) mint_id
                                               (tail mint_amounts))).
Proof. rewrite receive_mintBatchTx. reflexivity. Qed.

(** On a well-formed ledger whose class 0 is non-divisible, the script's
    mint entries fail at the first one: 100 base units added to a whole
    number of units. *)
Lemma mint_entries_reverts accounts st p :
  wf st -> getPolicy (registry st) mint_id = Ok p -> nonDivisible p = true ->
  applySeq st (mintEntries (mint_accounts accounts) mint_id mint_amounts) =
    Err DivisibilityViolation.
Proof.
  intros Hwf Hp Hnd.
  transitivity (l1 ← applyDelta st (PAYEE1 accounts) mint_id 100 ;
                applySeq l1 (mintEntries (tail (mint_accounts accounts)) mint_id
                                         (tail mint_amounts))); [reflexivity|].
  unfold applyDelta, decideDelta. simpl policy_of. rewrite Hp. simpl.
  destruct (wf_balance_admissible _ (PAYEE1 accounts) _ _ Hwf Hp) as [Hnn Hadm].
  assert (Hw : balanceOf st (PAYEE1 accounts) mint_id mod UNIT = 0).
  { destruct (decide (0 < balanceOf st (PAYEE1 accounts) mint_id)).
    - apply Hadm; auto.
    - replace (balanceOf _ _ _) with 0 by lia. reflexivity. }
  rewrite validate_fractional by
    (first [exact Hnd | apply whole_plus_fraction; [exact Hw|unfold UNIT; lia] | lia]).
  reflexivity.
Qed.

(** C1: Every storage the Hypershare contract the script deploys can reach by
    committed calls, whoever sends them, satisfies the global invariant:
    holder counts equal the holder sets, balances are non-negative and
    admissible under their class policy, and shareholder limits hold. *)
Theorem deployed_reachable_wf s :
  rtc step (deployHypershare (api:=Hypershare_api)) s -> wf (ledger s).
Proof. intros Hs. apply reachable_wf. exists TOKEN_URI, ZERO_ADDR, ZERO_ADDR. exact Hs. Qed.

(** C7: On every contract state, the script's [mintBatch] call has exactly
    the effect of the four single [mint] calls of its entries, in the
    order the script lists them: the same storage when all confirm, the
    same error otherwise. *)
Theorem mintBatchTx_as_mints accounts s :
  send s (mintBatchTx accounts) =
    receipt (run s (mintCalls (mint_accounts accounts) mint_id mint_amounts)).
Proof.
  rewrite send_receive. f_equal.
  apply mintBatch_as_mints; [reflexivity|discriminate|apply mint_amounts_nonzero].
Qed.

(** C5: On every well-formed contract whose class 0 is non-divisible (as
    the script's policy makes it), the script's [mintBatch] reverts with
    [DivisibilityViolation]: its first mint adds 100 base units to a
    whole number of units. Re-running the script on a contract that
    already has holders fails the same way. The error rests on [UNIT]
    being larger than 100 base units ([UNIT] is 10^18, inferred from the
    script's minimum; the spec leaves it open). *)
Theorem mintBatchTx_reverts accounts s p :
  wf (ledger s) -> getPolicy (registry (ledger s)) mint_id = Ok p -> nonDivisible p = true ->
  send (api:=Hypershare_api) s (mintBatchTx accounts) = Reverted DivisibilityViolation.
Proof.
  intros Hwf Hp Hnd. rewrite send_receive, receive_mintBatchTx.
  rewrite (mint_entries_reverts _ _ p) by assumption. reflexivity.
Qed.

(** C8: What the script's [mintBatch] does under a policy it fits: on a
    well-formed contract whose class 0 is divisible, asks for at most 100
    base units and has room for four more holders, the call commits and
    each account's class-0 balance grows by the amounts the script lists
    for it (100, 200, 300 and 400 to [PAYEE1]..[PAYEE4], summed where
    brownie gives two payees the same address). *)
Theorem mintBatchTx_divisible_Ok accounts s p :
  wf (ledger s) -> getPolicy (registry (ledger s)) mint_id = Ok p ->
  nonDivisible p = false -> shareholdingMinimum p <= 100 ->
  shareholderLimit p <= 0 \/ holderCountOf s mint_id + 4 <= shareholderLimit p ->
  exists s', send (api:=Hypershare_api) s (mintBatchTx accounts) = Confirmed s' /\
    forall a, balanceOf (ledger s') a mint_id =
      balanceOf (ledger s) a mint_id + credited a (mint_accounts accounts) mint_amounts.
Proof.
  intros Hwf Hp Hnd Hmin Hlim. rewrite send_receive, receive_mintBatchTx.
  destruct (applySeq_credits_Ok (ledger s) mint_id p
              (mintEntries (mint_accounts accounts) mint_id mint_amounts))
    as [l' Hl']; auto.
  - repeat constructor; simpl; lia.
  - eexists. split; [rewrite Hl'; reflexivity|]. intros a. simpl.
    rewrite (applySeq_balance _ _ _ _ _ Hl'). unfold mintEntries.
    rewrite netDelta_mint, decide_True by reflexivity. reflexivity.
Qed.

(** When the script's [mintBatch] commits and its four payees are
    distinct accounts that held nothing of class 0, the class gains
    exactly four holders. *)
Theorem mintBatchTx_new_holders accounts s s' :
  send (api:=Hypershare_api) s (mintBatchTx accounts) = Confirmed s' ->
  NoDup (mint_accounts accounts) ->
  Forall (fun a => balanceOf (ledger s) a mint_id = 0) (mint_accounts accounts) ->
  holderCountOf s' mint_id = holderCountOf s mint_id + 4.
Proof.
  rewrite send_receive, receipt_Confirmed, receive_mintBatchTx. intros Hr Hnd Hz.
  destruct (applySeq _ _) as [l'|] eqn:Hs; simpl in Hr; [|discriminate].
  injection Hr as <-. unfold holderCountOf. simpl.
  rewrite (applySeq_new_holders _ _ _ _ Hs); [reflexivity| |exact Hnd].
  unfold mint_accounts in Hz. rewrite !Forall_cons in Hz. destruct_and! Hz.
  repeat constructor; simpl; auto; lia.
Qed.

(** Whatever the contract's state, the script's [mintBatch] is never
    refused by the batch guards ([ArityMismatch], [InvalidParameters]):
    its two arrays have four entries each and no amount is zero. It can
    only fail on an unknown class or a compliance rule. *)
Theorem mintBatchTx_guards_pass accounts s e :
  send s (mintBatchTx accounts) = Reverted e ->
  e = UnknownClass \/ complianceError e = true.
Proof.
  rewrite send_receive, receipt_Reverted, receive_mintBatchTx. intros He.
  destruct (applySeq _ _) eqn:E; simpl in He; [discriminate|].
  injection He as <-. eapply applySeq_Err_kind; eauto.
Qed.

(** The script's [mintBatch] needs the [newToken] call before it: on
    a contract where no class has been created it reverts with
    [UnknownClass]. *)
Theorem mintBatchTx_unknown_class accounts s :
  classes (registry (ledger s)) = [] ->
  send s (mintBatchTx accounts) = Reverted UnknownClass.
Proof.
  intros Hc. rewrite send_receive, receive_mintBatchTx_first.
  unfold applyDelta, decideDelta. simpl policy_of. unfold getPolicy. rewrite Hc.
  reflexivity.
Qed.

(** C10: The script's [newToken] call commits on every contract state: its
    arguments are non-negative. The class it creates gets the next id
    and the script's policy; the other classes and all balances are
    unchanged. *)
Theorem newTokenTx_Ok s :
  exists s', send s newTokenTx = Confirmed s' /\
    getPolicy (registry (ledger s')) (length (classes (registry (ledger s)))) = Ok scriptPolicy /\
    (forall c, c <> length (classes (registry (ledger s))) ->
       getPolicy (registry (ledger s')) c = getPolicy (registry (ledger s)) c) /\
    balances (ledger s') = balances (ledger s).
Proof.
  rewrite send_receive. unfold newTokenTx. simpl receive. unfold newToken.
  destruct (createClass shareholderLimit_arg shareholdingMinimum_arg
             shareholdingNonDivisible_arg (registry (ledger s))) as [[id reg']|e] eqn:Hc.
  - pose proof Hc as (_ & _ & -> & ->)%createClass_Ok.
    destruct (createClass_lookup _ _ _ _ _ _ Hc) as (_ & Hnew & Hother & _).
    eexists. split; [reflexivity|]. split; [exact Hnew|]. split; [exact Hother|reflexivity].
  - apply createClass_Err in Hc. unfold shareholderLimit_arg, shareholdingMinimum_arg in Hc.
    lia.
Qed.

(** The class id the script hard-codes for [mintBatch] (0) is the id
    its [newToken] call creates exactly when the contract had no class
    before; on a contract that already has classes the script mints to
    an older class. *)
Theorem newTokenTx_fresh_id s id s' :
  newToken s shareholderLimit_arg shareholdingMinimum_arg shareholdingNonDivisible_arg =
    Ok (id, s') ->
  (id = mint_id <-> classes (registry (ledger s)) = []).
Proof.
  unfold newToken. destruct (createClass _ _ _ _) as [[id' reg']|e] eqn:Hc;
    simpl; intros He; [|discriminate].
  injection He as <- _. apply createClass_Ok in Hc as (_ & _ & -> & _).
  unfold mint_id. rewrite length_zero_iff_nil. reflexivity.
Qed.

End Deploy.
