(* ===== verification/ScriptExec.v ===== *)
(** * The deploy script, statement by statement

    [Script.main] is the body of [main()] in [src/deploy.py] written as
    nested continuations. Here the same body is run the way Python runs
    it: a list of statements ([body], lines 13 to 50) executed one at a
    time on a frame holding [main]'s local variables ([HYPERSHARE],
    [REGISTRY], the lines printed so far and the transactions sent so far).
    A statement that reads a variable not yet assigned cannot step (Python
    would raise [NameError]); a reverted transaction raises out of [main];
    running off the end of the body returns.

    Each rule checks that the variables its statement reads are assigned:
    [print(HYPERSHARE.address)] and the registry deployment (which passes
    [HYPERSHARE.address]) need [HYPERSHARE], [print(REGISTRY.address)]
    needs [REGISTRY], a transaction needs [HYPERSHARE]. Returning or
    raising builds the script's result, which records the registry
    contract, so it needs [REGISTRY] too.

    The step relation [step] is inductive, with the executable [stepf]
    beside it ([step_stepf]). The invariant [reachInv] says what the
    frame holds after each prefix of the body; [reachable_progress]
    shows that no run of [main] gets stuck: the body assigns every
    variable before a statement reads it. *)

From stdpp Require Import base list relations.
From Stdlib Require Import ZArith Lia.
From S2P Require Import Prelude Address Script.

Module ScriptExec.
Import Script.

(** The statements of [main()]'s body. [tx = ...] stores the receipt in a
    variable the script never reads again, so a [Transact] keeps only its
    effect on the contract and the transactions sent. *)
Inductive Stmt :=
  | DeployHypershare            (** [HYPERSHARE = Hypershare.deploy(...)], lines 13-18 *)
  | PrintHypershare             (** [print(HYPERSHARE.address)], line 19 *)
  | DeployRegistry              (** [REGISTRY = HypershareRegistry.deploy(...)], lines 21-25 *)
  | PrintRegistry               (** [print(REGISTRY.address)], line 26 *)
  | Transact (c : Call).        (** [tx = HYPERSHARE.method(...)], lines 28, 31-38, 41-50 *)

Section Exec.
Context (accounts : nat -> Address) (hs_addr reg_addr : Address).

(** [main()]'s body in source order. *)
Definition body : list Stmt :=
  [DeployHypershare; PrintHypershare; DeployRegistry; PrintRegistry;
   Transact (setRegistryTx reg_addr); Transact newTokenTx; Transact (mintBatchTx accounts)].

Context {S E : Type} {api : HypershareApi S E}.

(** [main]'s local variables ([None] until assigned), the console and the
    transactions brownie has sent. *)
Record Frame := mkFrame {
  f_hypershare : option S;
  f_registry : option RegistryContract;
  f_out : list Address;
  f_log : list Sent
}.

(** A running [main] with the statements left, or [main] having returned
    or raised. *)
Inductive Config :=
  | Running (f : Frame) (k : list Stmt)
  | Returned (r : ScriptResult S E).

Definition init : Config := Running (mkFrame None None [] []) body.

Inductive step : Config -> Config -> Prop :=
  | step_deployHypershare f k :
      step (Running f (DeployHypershare :: k))
           (Running (mkFrame (Some deployHypershare) (f_registry f) (f_out f) (f_log f)) k)
  | step_printHypershare f k s :
      f_hypershare f = Some s ->
      step (Running f (PrintHypershare :: k))
           (Running (mkFrame (f_hypershare f) (f_registry f) (print (f_out f) hs_addr) (f_log f)) k)
  | step_deployRegistry f k s :
      f_hypershare f = Some s ->
      step (Running f (DeployRegistry :: k))
           (Running (mkFrame (f_hypershare f) (Some (deployRegistry hs_addr)) (f_out f) (f_log f)) k)
  | step_printRegistry f k reg :
      f_registry f = Some reg ->
      step (Running f (PrintRegistry :: k))
           (Running (mkFrame (f_hypershare f) (f_registry f) (print (f_out f) reg_addr) (f_log f)) k)
  | step_confirmed f k c s s' :
      f_hypershare f = Some s -> send s c = Confirmed s' ->
      step (Running f (Transact c :: k))
           (Running (mkFrame (Some s') (f_registry f) (f_out f)
                             (f_log f ++ [mkSent (deployer accounts) c])) k)
  | step_reverted f k c s reg e :
      f_hypershare f = Some s -> f_registry f = Some reg -> send s c = Reverted e ->
      step (Running f (Transact c :: k))
           (Returned (mkScriptResult s reg (f_out f)
                                     (f_log f ++ [mkSent (deployer accounts) c]) (Some e)))
  | step_return f s reg :
      f_hypershare f = Some s -> f_registry f = Some reg ->
      step (Running f []) (Returned (mkScriptResult s reg (f_out f) (f_log f) None)).

(** The same step, as a function. *)
Definition stepf (cfg : Config) : option Config :=
  match cfg with
  | Returned _ => None
  | Running f [] =>
      match f_hypershare f, f_registry f with
      | Some s, Some reg => Some (Returned (mkScriptResult s reg (f_out f) (f_log f) None))
      | _, _ => None
      end
  | Running f (DeployHypershare :: k) =>
      Some (Running (mkFrame (Some deployHypershare) (f_registry f) (f_out f) (f_log f)) k)
  | Running f (PrintHypershare :: k) =>
      match f_hypershare f with
      | Some _ =>
          Some (Running (mkFrame (f_hypershare f) (f_registry f) (print (f_out f) hs_addr) (f_log f)) k)
      | None => None
      end
  | Running f (DeployRegistry :: k) =>
      match f_hypershare f with
      | Some _ =>
          Some (Running (mkFrame (f_hypershare f) (Some (deployRegistry hs_addr)) (f_out f) (f_log f)) k)
      | None => None
      end
  | Running f (PrintRegistry :: k) =>
      match f_registry f with
      | Some _ =>
          Some (Running (mkFrame (f_hypershare f) (f_registry f) (print (f_out f) reg_addr) (f_log f)) k)
      | None => None
      end
  | Running f (Transact c :: k) =>
      match f_hypershare f with
      | None => None
      | Some s =>
          let log' := f_log f ++ [mkSent (deployer accounts) c] in
          match send s c with
          | Confirmed s' => Some (Running (mkFrame (Some s') (f_registry f) (f_out f) log') k)
          | Reverted e =>
              match f_registry f with
              | Some reg => Some (Returned (mkScriptResult s reg (f_out f) log' (Some e)))
              | None => None
              end
          end
      end
  end.

(** What the frame holds once the first [n] statements of [body] have
    run: both prints and the registry deployment done in order, the
    first [n - 4] calls sent, signed by [accounts[0]], and the contract
    storage they produce. *)
Definition frameAt (n : nat) (f : Frame) : Prop :=
  f_out f = take (n / 2) [hs_addr; reg_addr] /\
  f_log f = mkSent (deployer accounts) <$> take (n - 4) (scriptCalls accounts reg_addr) /\
  f_registry f = (if (n <? 3)%nat then None else Some (deployRegistry hs_addr)) /\
  f_hypershare f = (if (n =? 0)%nat then None
                    else confirmAll deployHypershare (take (n - 4) (scriptCalls accounts reg_addr))) /\
  ((1 <= n)%nat -> is_Some (f_hypershare f)).

(** The invariant of a run of [main]: a running frame is the frame after
    some prefix of [body] with the rest still to run; a finished run has
    printed both addresses and deployed the registry for [HYPERSHARE]. *)
Definition reachInv (cfg : Config) : Prop :=
  match cfg with
  | Running f k => exists n, (n <= 7)%nat /\ k = drop n body /\ frameAt n f
  | Returned r => printed r = [hs_addr; reg_addr] /\ registryContract r = deployRegistry hs_addr
  end.

End Exec.

(** ** Theorems *)

Section Theorems.
Context (accounts : nat -> Address) (hs_addr reg_addr : Address).
Context {S E : Type} {api : HypershareApi S E}.

Local Abbreviation step := (step accounts hs_addr reg_addr (S:=S) (E:=E)).
Local Abbreviation stepf := (stepf accounts hs_addr reg_addr (S:=S) (E:=E)).
Local Abbreviation init := (init accounts reg_addr (S:=S) (E:=E)).

Lemma step_stepf cfg cfg' : step cfg cfg' <-> stepf cfg = Some cfg'.
Proof.
  split.
  - induction 1; simpl;
      repeat match goal with H : ?x = _ |- context [?x] => rewrite H end; reflexivity.
  - destruct cfg as [f [|[| | | |c] k]|r]; simpl; [..|discriminate];
      repeat match goal with |- context [match ?x with _ => _ end] => destruct x eqn:? end;
      intros; simplify_eq;
      try match goal with H : f_hypershare _ = Some _ |- _ => rewrite <- H end;
      try match goal with H : f_registry _ = Some _ |- _ => rewrite <- H end;
      econstructor; eauto.
Qed.

Local Abbreviation reachInv := (reachInv accounts hs_addr reg_addr (S:=S) (E:=E)).

Lemma reachInv_init : reachInv init.
Proof. exists 0%nat. split; [lia|]. split; [reflexivity|]. repeat split; lia. Qed.

(** One step of the body keeps the invariant: the case of each statement. *)
Lemma reachInv_step cfg cfg' : reachInv cfg -> step cfg cfg' -> reachInv cfg'.
Proof.
  intros Hi Hs. destruct cfg as [f k|r]; [|inversion Hs].
  destruct Hi as (n & Hn & -> & Hout & Hlog & Hreg & Hhs & Hsome).
  destruct n as [|[|[|[|[|[|[|[|n]]]]]]]]; [..|lia];
    cbn [body drop] in Hs; inversion Hs; subst; unfold reachInv, frameAt;
    cbn in Hout, Hlog, Hreg, Hhs, Hsome |- *;
    [> exists 1%nat | exists 2%nat | exists 3%nat | exists 4%nat | exists 5%nat | idtac
     | exists 6%nat | idtac | exists 7%nat | idtac | idtac ];
    rewrite ?Hout, ?Hlog, ?Hreg; repeat split; cbn; try (reflexivity || lia || congruence);
    try (intros; first [eexists; reflexivity | apply Hsome; lia]).
  all: match goal with Hf : f_hypershare ?f = Some _ |- _ => rewrite Hf in Hhs end.
  all: cbn in *; simplify_eq.
  all: repeat match goal with
         |- context [match ?m with Confirmed _ => _ | Reverted _ => _ end] =>
           destruct m eqn:?; simplify_eq
       end; congruence.
Qed.

Lemma reachInv_rtc cfg cfg' : rtc step cfg cfg' -> reachInv cfg -> reachInv cfg'.
Proof.
  induction 1 as [|x y z Hxy _ IH]; intros Hx; [exact Hx|apply IH; eapply reachInv_step; eauto].
Qed.

(** A configuration satisfying the invariant is final or can step: each
    statement finds the variables it reads assigned. *)
Lemma reachInv_progress cfg : reachInv cfg -> (exists r, cfg = Returned r) \/ red step cfg.
Proof.
  destruct cfg as [f k|r]; [|eauto]. intros (n & Hn & -> & _ & _ & Hreg & _ & Hsome).
  right. exists (default init (stepf (Running f (drop n (body accounts reg_addr))))).
  apply step_stepf.
  destruct n as [|[|[|[|[|[|[|[|n]]]]]]]]; [..|lia]; cbn [body drop stepf]; try reflexivity;
    destruct Hsome as [s Hs]; try lia; rewrite Hs; cbn in Hreg; rewrite ?Hreg;
    try (destruct (send s _); reflexivity).
  all: reflexivity.
Qed.

(** C6: No run of [main] gets stuck: every reachable configuration has
    returned or raised, or can take a step. Since every rule requires
    the variables its statement reads, this says the body assigns
    [HYPERSHARE] and [REGISTRY] before any statement reads them (no
    [NameError]); a body that printed [REGISTRY.address] before deploying
    the registry would get stuck. *)
Theorem reachable_progress cfg : rtc step init cfg -> (exists r, cfg = Returned r) \/ red step cfg.
Proof. intros H. apply reachInv_progress, (reachInv_rtc _ _ H reachInv_init). Qed.

End Theorems.

End ScriptExec.
