(* ===== verification/ScriptModule.v ===== *)
(** * The module import of the script

    [brownie run scripts/deploy.py] imports the module and then calls
    [main()]. The import runs the module-level statements of
    [src/deploy.py]: [ZERO_ADDR] (line 4) and [PAYEE1] to [PAYEE4]
    (lines 5-8), which index brownie's account list. Indexing a Python
    list past its end raises [IndexError], so the import fails on a
    network with fewer than five accounts, before any transaction is
    sent. This file models brownie's account list as a [list Address],
    the indexing [getitem] in a small exception monad [Py] and the import
    [importModule]. The theorem [import_module]: the import succeeds
    exactly when there are five accounts or more, with [PAYEE1..4] the
    accounts 1 to 4; [Script.main_reads_accounts_0_4] shows [main] reads
    no other account. *)

From Stdlib Require Import String.
From stdpp Require Import base list.
From Stdlib Require Import ZArith Lia.
From S2P Require Import Prelude Address Script.

Module ScriptModule.
Import Script.
Local Open Scope nat_scope.

(** The Python exception the module-level code can raise. *)
Inductive PyError := IndexError.

(** A Python computation: a value, or an exception propagating out. *)
Inductive Py (A : Type) :=
  | PyOk (a : A)
  | PyRaise (e : PyError).
Arguments PyOk {A} a.
Arguments PyRaise {A} e.

#[export] Instance Py_ret : MRet Py := fun _ a => PyOk a.
#[export] Instance Py_bind : MBind Py :=
  fun _ _ f m => match m with PyOk a => f a | PyRaise e => PyRaise e end.

(** [accounts[i]]: Python list indexing, [IndexError] past the end. *)
Definition getitem (accts : list Address) (i : nat) : Py Address :=
  match accts !! i with
  | Some a => PyOk a
  | None => PyRaise IndexError
  end.

(** The module's globals after the import. *)
Record Globals := mkGlobals {
  g_ZERO_ADDR : String.string;
  g_PAYEE1 : Address;
  g_PAYEE2 : Address;
  g_PAYEE3 : Address;
  g_PAYEE4 : Address
}.

(** Lines 4-8, in order: the first index out of range raises. *)
Definition importModule (accts : list Address) : Py Globals :=
  PAYEE1 ← getitem accts 1 ;
  PAYEE2 ← getitem accts 2 ;
  PAYEE3 ← getitem accts 3 ;
  PAYEE4 ← getitem accts 4 ;
  mret (mkGlobals ZERO_ADDR_literal PAYEE1 PAYEE2 PAYEE3 PAYEE4).

(** ** Theorems *)

Lemma getitem_lt accts i : (i < length accts)%nat -> getitem accts i = PyOk (accts !!! i).
Proof.
  intros Hi. unfold getitem. destruct (lookup_lt_is_Some_2 accts i Hi) as [a Ha].
  rewrite Ha, (list_lookup_total_correct _ _ _ Ha). reflexivity.
Qed.

Lemma getitem_ge accts i : (length accts <= i)%nat -> getitem accts i = PyRaise IndexError.
Proof. intros Hi. unfold getitem. rewrite lookup_ge_None_2 by exact Hi. reflexivity. Qed.

Lemma importModule_ok accts :
  (5 <= length accts)%nat ->
  importModule accts = PyOk (mkGlobals ZERO_ADDR_literal (accts !!! 1) (accts !!! 2)
                                        (accts !!! 3) (accts !!! 4)).
Proof. intros H. unfold importModule. rewrite !getitem_lt by lia. reflexivity. Qed.

Lemma importModule_short accts :
  (length accts < 5)%nat -> importModule accts = PyRaise IndexError.
Proof.
  intros H. unfold importModule.
  destruct (decide (1 < length accts)%nat);
    [rewrite (getitem_lt _ 1) by lia|rewrite (getitem_ge _ 1) by lia; reflexivity].
  destruct (decide (2 < length accts)%nat);
    [rewrite (getitem_lt _ 2) by lia|rewrite (getitem_ge _ 2) by lia; reflexivity].
  destruct (decide (3 < length accts)%nat);
    [rewrite (getitem_lt _ 3) by lia|rewrite (getitem_ge _ 3) by lia; reflexivity].
  rewrite (getitem_ge _ 4) by lia. reflexivity.
Qed.

(** C3: Importing the module succeeds exactly when brownie provides at
    least five accounts; [PAYEE1] to [PAYEE4] are then the accounts 1 to
    4 and [ZERO_ADDR] the literal of line 4. With fewer accounts the
    import raises [IndexError]. *)
Theorem import_module accts :
  importModule accts =
    if decide (5 <= length accts)%nat
    then PyOk (mkGlobals ZERO_ADDR_literal (accts !!! 1) (accts !!! 2) (accts !!! 3) (accts !!! 4))
    else PyRaise IndexError.
Proof.
  case_decide as H; [apply importModule_ok, H|apply importModule_short; lia].
Qed.

End ScriptModule.
