(* ===== verification/Examples.v ===== *)
(** * Concrete runs of the theorems

    Each lemma here instantiates a theorem of the development at a small
    concrete ledger or contract state, with its hypotheses established by
    evaluation: the hypotheses are satisfiable and the conclusions are
    observed on real data. The ledgers hold one class and no balances
    yet; [wf_fresh] shows such a ledger satisfies the invariant. *)

From Stdlib Require Import String.
From stdpp Require Import base decidable gmap sets list relations.
From Stdlib Require Import ZArith Lia.
From S2P Require Import Prelude Script ScriptExec ScriptModule Registry Compliance Ledger Batch BatchGrouped Hypershare Deploy.

Open Scope Z_scope.

Import TokenRegistry Hypershare Script Deploy.

(** A ledger whose registry holds the given classes and no holders. *)
Definition freshLedger (ps : list Policy) : Ledger Registry :=
  mkLedger (mkRegistry ps ∅) ∅.

(** Class 0: at most two holders, no minimum, divisible. *)
Definition L2 : Ledger Registry := freshLedger [mkPolicy 2 0 false].

(** Class 0 of [L10]: at most ten holders, no minimum, divisible. *)
Definition L10 : Ledger Registry := freshLedger [mkPolicy 10 0 false].

(** The contract storage holding a given ledger. *)
Definition sL2 : State := withLedger (deploy "" 0 0) L2.
Definition sL1 : State := withLedger (deploy "" 0 0) (freshLedger [mkPolicy 1 0 false]).

Lemma wf_fresh ps : wf (freshLedger ps).
Proof. apply wf_no_balances. Qed.

Lemma reachable_wf_witness :
  exists s, run (deploy "" 0 0) [NewToken 2 0 false; Mint 1 0 10; Mint 2 0 10] = Ok s /\
            reachable s /\ wf (ledger s).
Proof.
  eexists. split; [vm_compute; reflexivity|].
  match goal with |- reachable ?s /\ _ => assert (Hr : reachable s) end.
  { exists ""%string, 0%N, 0%N.
    apply (run_reachable (deploy "" 0 0) [NewToken 2 0 false; Mint 1 0 10; Mint 2 0 10]).
    vm_compute. reflexivity. }
  split; [exact Hr|]. apply (reachable_wf _ Hr).
Defined.

Ltac by_eval := vm_compute; reflexivity.

Lemma mint_complete_witness :
  policy_of (registry L2) 0 = Ok (mkPolicy 2 0 false) /\ 10%N <> 0%N /\
  admissible (mkPolicy 2 0 false) (balanceOf L2 1 0 + Z.of_N 10) /\
  exists st, mint L2 1 0 10 = Ok st.
Proof.
  assert (Hp : policy_of (registry L2) 0 = Ok (mkPolicy 2 0 false)) by by_eval.
  assert (Hadm : admissible (mkPolicy 2 0 false) (balanceOf L2 1 0 + Z.of_N 10)).
  { vm_compute. split; [discriminate|]. intros _. split; [discriminate|]. discriminate. }
  split; [exact Hp|]. split; [discriminate|]. split; [exact Hadm|].
  apply (mint_complete L2 1 0 10 _ Hp); [discriminate|exact Hadm|].
  intros _ _. vm_compute. discriminate.
Defined.

Lemma transfer_guards_witness :
  exists st1, mint L2 1 0 10 = Ok st1 /\
    transfer st1 1 1 0 4 = Err SelfTransferNotAllowed /\
    transfer st1 1 2 0 11 = Err InsufficientBalance.
Proof.
  eexists. split; [by_eval|].
  match goal with |- transfer ?s1 _ _ _ _ = _ /\ _ =>
    destruct (transfer_guards s1 1 1 0 4 (mkPolicy 2 0 false)) as [Hs _];
    destruct (transfer_guards s1 1 2 0 11 (mkPolicy 2 0 false)) as [_ Hi]
  end.
  split; [apply Hs; reflexivity|]. apply Hi; [discriminate|by_eval|by_eval].
Defined.

Lemma createClass_roundtrip_witness :
  createClass 10 5 true empty = Ok (0%nat, mkRegistry [mkPolicy 10 5 true] ∅) /\
  0%nat = length (classes empty) /\
  getPolicy (mkRegistry [mkPolicy 10 5 true] ∅) 0 = Ok (mkPolicy 10 5 true).
Proof.
  split; [by_eval|].
  apply (createClass_roundtrip 10 5 true empty 0 (mkRegistry [mkPolicy 10 5 true] ∅)).
  by_eval.
Defined.

Lemma createClass_preserves_policy_witness :
  createClass 2 0 false (mkRegistry [mkPolicy 10 5 true] ∅) =
    Ok (1%nat, mkRegistry [mkPolicy 10 5 true; mkPolicy 2 0 false] ∅) /\
  getPolicy (mkRegistry [mkPolicy 10 5 true] ∅) 0 = Ok (mkPolicy 10 5 true) /\
  getPolicy (mkRegistry [mkPolicy 10 5 true; mkPolicy 2 0 false] ∅) 0 = Ok (mkPolicy 10 5 true).
Proof.
  split; [by_eval|]. split; [by_eval|].
  apply (createClass_preserves_policy 2 0 false (mkRegistry [mkPolicy 10 5 true] ∅) 1
           (mkRegistry [mkPolicy 10 5 true; mkPolicy 2 0 false] ∅)); by_eval.
Defined.

Lemma mintBatch_wf_witness :
  exists st, wf L10 /\ mintBatch L10 [1; 2; 3; 4]%N 0 [100; 200; 300; 400]%N "" = Ok st /\
    wf st.
Proof.
  eexists. split; [apply wf_fresh|]. split; [by_eval|].
  apply (mintBatch_wf L10 [1; 2; 3; 4]%N 0 [100; 200; 300; 400]%N "");
    [apply wf_fresh|by_eval].
Defined.

Lemma mintBatch_balance_witness :
  exists st, mintBatch L10 [1; 2; 1]%N 0 [100; 200; 300]%N "" = Ok st /\
    balanceOf st 1 0 =
      balanceOf L10 1 0 +
        (if decide (0%nat = 0%nat) then credited 1 [1; 2; 1]%N [100; 200; 300]%N else 0).
Proof.
  eexists. split; [by_eval|].
  apply (mintBatch_balance L10 [1; 2; 1]%N 0 [100; 200; 300]%N ""). by_eval.
Defined.

Lemma mintBatch_arity_witness :
  (length [1; 2]%N <> length [100]%N \/ [1; 2]%N = []) /\
  mintBatch L10 [1; 2]%N 0 [100]%N "" = Err ArityMismatch.
Proof.
  assert (Har : length [1; 2]%N <> length [100]%N \/ [1; 2]%N = []) by (left; discriminate).
  split; [exact Har|]. apply (mintBatch_arity L10 [1; 2]%N 0 [100]%N "" Har).
Defined.

Lemma mintBatch_as_mints_witness :
  length [1; 2]%N = length [5; 5]%N /\ [1; 2]%N <> [] /\ (0%N ∉ [5; 5]%N) /\
  receive sL2 (MintBatch [1; 2]%N 0 [5; 5]%N "") = run sL2 (mintCalls [1; 2]%N 0 [5; 5]%N).
Proof.
  assert (Hz : 0%N ∉ [5; 5]%N) by (apply (bool_decide_unpack (0%N ∉ [5; 5]%N)); vm_compute; exact I).
  split; [reflexivity|]. split; [discriminate|]. split; [exact Hz|].
  apply (mintBatch_as_mints sL2 [1; 2]%N 0 [5; 5]%N ""); [reflexivity|discriminate|exact Hz].
Defined.

Lemma mintBatch_first_error_witness :
  receive sL1 (MintBatch [1; 2]%N 0 [5; 5]%N "") = Err ShareholderLimitExceeded /\
  exists pre m post sp, mintCalls [1; 2]%N 0 [5; 5]%N = pre ++ m :: post /\
    run sL1 pre = Ok sp /\ receive sp m = Err ShareholderLimitExceeded.
Proof.
  assert (Hz : 0%N ∉ [5; 5]%N) by (apply (bool_decide_unpack (0%N ∉ [5; 5]%N)); vm_compute; exact I).
  assert (He : receive sL1 (MintBatch [1; 2]%N 0 [5; 5]%N "") = Err ShareholderLimitExceeded)
    by by_eval.
  split; [exact He|].
  apply (mintBatch_first_error sL1 [1; 2]%N 0 [5; 5]%N "" ShareholderLimitExceeded);
    [reflexivity|discriminate|exact Hz|exact He].
Defined.

Lemma mint_call_balance_witness :
  exists s', receive sL2 (Mint 1 0 10) = Ok s' /\
    balanceOf (ledger s') 1 0 =
      (if decide (0%nat = 0%nat /\ 1%N = 1%N) then balanceOf (ledger sL2) 1 0 + Z.of_N 10
       else balanceOf (ledger sL2) 1 0).
Proof. eexists. split; [by_eval|]. apply (mint_call_balance sL2 1 0 10). by_eval. Defined.

Lemma mint_call_holder_count_witness :
  exists s', wf (ledger sL2) /\ receive sL2 (Mint 1 0 10) = Ok s' /\
    holderCountOf s' 0 =
      holderCountOf sL2 0 + (if decide (balanceOf (ledger sL2) 1 0 = 0) then 1 else 0).
Proof.
  eexists. split; [apply wf_fresh|]. split; [by_eval|].
  apply (mint_call_holder_count sL2 1 0 10); [apply wf_fresh|by_eval].
Defined.

Lemma transfer_call_balance_witness :
  exists s1 s2, receive sL2 (Mint 1 0 10) = Ok s1 /\ receive s1 (Transfer 1 2 0 4) = Ok s2 /\
    balanceOf (ledger s2) 2 0 =
      (if decide (0%nat = 0%nat /\ 2%N = 1%N) then balanceOf (ledger s1) 1 0 - Z.of_N 4
       else if decide (0%nat = 0%nat /\ 2%N = 2%N) then balanceOf (ledger s1) 2 0 + Z.of_N 4
       else balanceOf (ledger s1) 2 0).
Proof.
  do 2 eexists. split; [by_eval|]. split; [by_eval|].
  eapply (transfer_call_balance _ 1 2 0 4). by_eval.
Defined.

Lemma transfer_calls_supply_witness :
  exists s1 s2, receive sL2 (Mint 1 0 10) = Ok s1 /\ receive s1 (Transfer 1 2 0 4) = Ok s2 /\
    supply (ledger s2) 0 = supply (ledger s1) 0.
Proof.
  do 2 eexists. split; [by_eval|]. split; [by_eval|].
  eapply (transfer_calls_supply _ (Transfer 1 2 0 4)); [left; eauto|by_eval].
Defined.

(** ** The script's calls on concrete contracts *)

(** brownie's accounts as the addresses 0, 1, 2, ... *)
Definition accountsN (i : nat) : Address := N.of_nat i.

(** The contract after the script's [setRegistry] and [newToken]. *)
Definition sScript : State := classCreated 7.

(** The freshly deployed contract, as the script deploys it. *)
Definition sDeployed : State := Hypershare.deploy TOKEN_URI ZERO_ADDR ZERO_ADDR.

(** The same contract with a divisible class 0 and no minimum. *)
Definition sDivisible : State :=
  mkState TOKEN_URI 7 ZERO_ADDR (freshLedger [mkPolicy 10 0 false]).

Lemma mintBatchTx_reverts_witness :
  wf (ledger sScript) /\ getPolicy (registry (ledger sScript)) mint_id = Ok scriptPolicy /\
  nonDivisible scriptPolicy = true /\
  send sScript (mintBatchTx accountsN) = Reverted DivisibilityViolation.
Proof.
  split; [apply wf_no_balances|]. split; [reflexivity|]. split; [reflexivity|].
  apply (mintBatchTx_reverts accountsN sScript scriptPolicy);
    [apply wf_no_balances|reflexivity|reflexivity].
Defined.

(** On a batch that touches two classes and fails in both, the two
    readings of the batch report different errors: the input-order
    simulation stops at the unknown class 1 of the first entry, while the
    grouped one simulates class 0 first (the order [remove_dups] leaves)
    and reports its negative balance. Both reject the batch, as
    [applyBatchGrouped_equiv] requires. *)
Example grouped_error_differs :
  applyBatch L2 [mkEntry 1 1 5; mkEntry 2 0 (-5); mkEntry 3 1 5] = Err UnknownClass /\
  applyBatchGrouped L2 [mkEntry 1 1 5; mkEntry 2 0 (-5); mkEntry 3 1 5] = Err NegativeBalance.
Proof. split; vm_compute; reflexivity. Qed.

Lemma mintBatchTx_divisible_Ok_witness :
  exists s', send sDivisible (mintBatchTx accountsN) = Confirmed s' /\
    balanceOf (ledger s') 3 mint_id =
      balanceOf (ledger sDivisible) 3 mint_id + credited 3 (mint_accounts accountsN) mint_amounts /\
    balanceOf (ledger s') 3 mint_id = 300.
Proof.
  destruct (mintBatchTx_divisible_Ok accountsN sDivisible (mkPolicy 10 0 false))
    as (s' & Hr & Hb); [apply wf_fresh|reflexivity|reflexivity|simpl; lia|right; vm_compute; discriminate|].
  exists s'. split; [exact Hr|]. split; [apply Hb|]. rewrite Hb. by_eval.
Defined.

Lemma mintBatchTx_guards_pass_witness :
  send sScript (mintBatchTx accountsN) = Reverted DivisibilityViolation /\
  (DivisibilityViolation = UnknownClass \/ complianceError DivisibilityViolation = true).
Proof.
  assert (He : send sScript (mintBatchTx accountsN) = Reverted DivisibilityViolation) by by_eval.
  split; [exact He|]. exact (mintBatchTx_guards_pass accountsN sScript _ He).
Defined.

Lemma mintBatchTx_unknown_class_witness :
  classes (registry (ledger sDeployed)) = [] /\
  send sDeployed (mintBatchTx accountsN) = Reverted UnknownClass.
Proof.
  split; [reflexivity|]. apply (mintBatchTx_unknown_class accountsN sDeployed).
  reflexivity.
Defined.

Lemma newTokenTx_fresh_id_witness :
  newToken (setRegistry sDeployed 7) shareholderLimit_arg shareholdingMinimum_arg
    shareholdingNonDivisible_arg = Ok (0%nat, sScript) /\
  (0%nat = mint_id <-> classes (registry (ledger (setRegistry sDeployed 7))) = []).
Proof.
  assert (Hn : newToken (setRegistry sDeployed 7) shareholderLimit_arg
                 shareholdingMinimum_arg shareholdingNonDivisible_arg = Ok (0%nat, sScript))
    by by_eval.
  split; [exact Hn|]. exact (newTokenTx_fresh_id _ _ _ Hn).
Defined.

Lemma mintBatchTx_new_holders_witness :
  exists s', send sDivisible (mintBatchTx accountsN) = Confirmed s' /\
    NoDup (mint_accounts accountsN) /\
    Forall (fun a => balanceOf (ledger sDivisible) a mint_id = 0) (mint_accounts accountsN) /\
    holderCountOf s' mint_id = holderCountOf sDivisible mint_id + 4.
Proof.
  assert (Hnd : NoDup (mint_accounts accountsN))
    by (apply (bool_decide_unpack _); vm_compute; exact I).
  assert (Hz : Forall (fun a => balanceOf (ledger sDivisible) a mint_id = 0)
                 (mint_accounts accountsN))
    by (apply (bool_decide_unpack _); vm_compute; exact I).
  eexists. split; [by_eval|]. split; [exact Hnd|]. split; [exact Hz|].
  match goal with |- holderCountOf ?s' _ = _ =>
    apply (mintBatchTx_new_holders accountsN sDivisible s'); [by_eval|exact Hnd|exact Hz]
  end.
Defined.

Lemma deployed_reachable_wf_witness :
  rtc step (deployHypershare (api:=Hypershare_api)) sScript /\ wf (ledger sScript).
Proof.
  assert (Hr : rtc step (deployHypershare (api:=Hypershare_api)) sScript).
  { apply (run_reachable _ [SetRegistry 7; NewToken shareholderLimit_arg
                              shareholdingMinimum_arg shareholdingNonDivisible_arg]).
    by_eval. }
  split; [exact Hr|]. exact (deployed_reachable_wf _ Hr).
Defined.

Lemma main_reads_accounts_0_4_witness :
  (forall i, (i < 5)%nat -> accountsN i = (fun j => if (j <? 5)%nat then accountsN j else 99%N) i) /\
  main (api:=Hypershare_api) accountsN 5 7 =
    main (fun j => if (j <? 5)%nat then accountsN j else 99%N) 5 7.
Proof.
  assert (Hacc : forall i, (i < 5)%nat ->
            accountsN i = (fun j => if (j <? 5)%nat then accountsN j else 99%N) i).
  { intros i Hi. simpl. destruct (Nat.ltb_spec i 5); [reflexivity|lia]. }
  split; [exact Hacc|]. apply (main_reads_accounts_0_4 _ _ 5 7). exact Hacc.
Defined.

(** The start of a run of the body on the contract model is reachable
    from itself, and there the first statement can step. *)
Lemma reachable_progress_witness :
  rtc (ScriptExec.step accountsN 5 7) (ScriptExec.init (S:=State) (E:=Error) accountsN 7)
      (ScriptExec.init accountsN 7) /\
  ((exists r, ScriptExec.init (S:=State) (E:=Error) accountsN 7 = ScriptExec.Returned r) \/
   red (ScriptExec.step accountsN 5 7) (ScriptExec.init (S:=State) (E:=Error) accountsN 7)).
Proof.
  split; [apply rtc_refl|].
  apply (ScriptExec.reachable_progress accountsN 5 7). apply rtc_refl.
Defined.

(** A network with four accounts: the import fails at [PAYEE4]. *)
Example import_four_accounts :
  ScriptModule.importModule [10; 11; 12; 13]%N = ScriptModule.PyRaise ScriptModule.IndexError.
Proof. reflexivity. Qed.
